(** * FinanceQA failure-analysis lab: labeling pipeline, sampler and viewer

    A shallow embedding of [src/labeling/label_failures.py] and of the
    metric and navigation code of [src/app.py], with the properties the
    specification states about them.

    Conventions of the embedding.
    - Python exceptions are values of type [exn]; a computation that may
      raise returns [exn + A] ([inl e] = raised [e]).
    - The two remote calls go through one client.  The remote service is a
      state of type [World] that every call reads and updates, so that an
      answer may depend on anything that happened before.
    - Console output ([print], [tqdm]) is not modelled. *)

From Stdlib Require Import String Ascii List ZArith QArith Lia Bool Permutation
  Sorted.
Import ListNotations.
Set Warnings "-register-all".
Close Scope Q_scope.
Open Scope string_scope.
Open Scope list_scope.

(* ===================================================================== *)
(** * Python values and exceptions *)
(* ===================================================================== *)

(** The values [json.loads] can return. *)
Inductive pyval : Type :=
| PyNone
| PyBool (b : bool)
| PyInt (z : Z)
| PyFloat (literal : string)
| PyStr (s : string)
| PyList (xs : list pyval)
| PyDict (items : list (string * pyval)).

Definition type_name (v : pyval) : string :=
  match v with
  | PyNone => "NoneType"
  | PyBool _ => "bool"
  | PyInt _ => "int"
  | PyFloat _ => "float"
  | PyStr _ => "str"
  | PyList _ => "list"
  | PyDict _ => "dict"
  end.

(** The exception classes the code tells apart or raises itself; every
    other subclass of [Exception] is [OtherException]. *)
Inductive exn_class : Type :=
| JSONDecodeError
| AttributeError
| KeyError
| ValueError
| OtherException.

(** An exception with the text [str(e)] gives for it. *)
Record exn : Type := Raise { exn_cls : exn_class; exn_str : string }.

Definition is_JSONDecodeError (e : exn) : bool :=
  match exn_cls e with JSONDecodeError => true | _ => false end.

Definition result (A : Type) : Type := (exn + A)%type.

(** [v == s] for a string [s]: only a [str] equals a [str]. *)
Definition py_eq_str (v : pyval) (s : string) : bool :=
  match v with
  | PyStr t => String.eqb t s
  | _ => false
  end.

(** [v in l] for a list of strings [l]. *)
Definition py_in (v : pyval) (l : list string) : bool :=
  existsb (py_eq_str v) l.

Fixpoint assoc {A : Type} (k : string) (items : list (string * A)) : option A :=
  match items with
  | [] => None
  | (k', v) :: rest => if String.eqb k k' then Some v else assoc k rest
  end.

(** [data.get(key, default)]: a dictionary lookup; any other value has no
    attribute [get]. *)
Definition py_get (data : pyval) (key : string) (default : pyval) : result pyval :=
  match data with
  | PyDict items =>
      inr (match assoc key items with Some v => v | None => default end)
  | _ =>
      inl (Raise AttributeError
             ("'" ++ type_name data ++ "' object has no attribute 'get'"))
  end.

(* ===================================================================== *)
(** * Frames and rows *)
(* ===================================================================== *)

(** A row of a frame: column label to cell text. *)
Definition Series : Type := list (string * string).

Record DataFrame : Type := mkDataFrame {
  columns : list string;
  rows : list Series
}.

Definition len (df : DataFrame) : Z := Z.of_nat (length (rows df)).

(** [row[key]] *)
Definition row_getitem (row : Series) (key : string) : result string :=
  match assoc key row with
  | Some v => inr v
  | None => inl (Raise KeyError ("'" ++ key ++ "'"))
  end.

(** [row.get(key, default)] *)
Definition row_get (row : Series) (key : string) (default : string) : string :=
  match assoc key row with
  | Some v => v
  | None => default
  end.

(** [key in df.columns] *)
Definition has_column (key : string) (df : DataFrame) : bool :=
  existsb (String.eqb key) (columns df).

(** One element of [df[col].isin(values)]; a missing cell is in no list. *)
Definition isin (col : string) (values : list string) (row : Series) : bool :=
  match assoc col row with
  | Some v => existsb (String.eqb v) values
  | None => false
  end.

(** [df[mask]] for [mask = df[col].isin(values)] *)
Definition df_mask_isin (col : string) (values : list string) (df : DataFrame)
  : DataFrame :=
  mkDataFrame (columns df) (filter (isin col values) (rows df)).

(* ===================================================================== *)
(** * Requests to the remote models *)
(* ===================================================================== *)

(** What [client.chat.completions.create] is called with.  The prompt text
    is a fixed template around the arguments kept here; the temperature is
    0 in both calls and the judge call carries the response schema. *)
Inductive request : Type :=
| TargetRequest (model context question : string)
| JudgeRequest (model question truth model_answer : string).

(** The labeled record appended for one sample. *)
Record record : Type := mkRecord {
  r_question : string;
  r_answer : string;
  r_context : string;
  r_question_type : string;
  r_company : string;
  r_file_link : string;
  r_file_name : string;
  model_answer : string;
  error_label : pyval;
  error_rationale : pyval
}.

(* --------------------------------------------------------------------- *)
(** ** Configuration *)

Definition TARGET_MODEL : string := "gpt-4o-mini".
Definition LABEL_MODEL : string := "gpt-4o".

Definition ERROR_LABELS : list string :=
  [ "CORRECT";
    "ARITHMETIC_ERROR";
    "ACCOUNTING_CONVENTION_ERROR";
    "MISSING_OR_WRONG_ASSUMPTION";
    "WRONG_METRIC_OR_CONCEPT";
    "CONTEXT_MISUSE_OR_HALLUCINATION";
    "NON_ANSWER_OR_GENERIC" ].

Definition UNKNOWN : string := "UNKNOWN".

(** The values an [error_label] cell may hold according to the data model. *)
Definition valid_label (v : pyval) : Prop :=
  exists s, v = PyStr s /\ (In s ERROR_LABELS \/ s = UNKNOWN).

(* ===================================================================== *)
(** * The viewer ([app.py]) *)
(* ===================================================================== *)

(** ** Metrics.  [error_label] below is the column [df["error_label"]],
    the only column [compute_metrics] reads. *)

(** [(col == label).sum()] *)
Definition count_eq (label : string) (col : list string) : nat :=
  list_sum (map (fun x => if String.eqb x label then 1 else 0) col).

(** The distinct values of a column, in order of first occurrence. *)
Fixpoint unique (col : list string) : list string :=
  match col with
  | [] => []
  | x :: rest => x :: filter (fun y => negb (String.eqb y x)) (unique rest)
  end.

Fixpoint insert_desc (p : string * nat) (s : list (string * nat))
  : list (string * nat) :=
  match s with
  | [] => [p]
  | q :: rest =>
      if Nat.leb (snd q) (snd p) then p :: q :: rest else q :: insert_desc p rest
  end.

(** Sorting by count, largest first; values with equal counts keep their
    order. *)
Definition sort_values_desc (s : list (string * nat)) : list (string * nat) :=
  fold_right insert_desc [] s.

(** [col.value_counts()]: each distinct value with its number of rows,
    most frequent first. *)
Definition value_counts (col : list string) : list (string * nat) :=
  sort_values_desc (map (fun l => (l, count_eq l col)) (unique col)).

(** [s.drop(labels=[label], errors="ignore")] *)
Definition series_drop (label : string) (s : list (string * nat))
  : list (string * nat) :=
  filter (fun p => negb (String.eqb (fst p) label)) s.

(** The scan of [idxmax]: the first entry holding the largest count. *)
Fixpoint idxmax_from (best : string) (best_count : nat)
  (s : list (string * nat)) : string :=
  match s with
  | [] => best
  | (l, c) :: rest =>
      if Nat.ltb best_count c then idxmax_from l c rest
      else idxmax_from best best_count rest
  end.

(** [s.idxmax()]; it raises on an empty series. *)
Definition idxmax (s : list (string * nat)) : result string :=
  match s with
  | [] => inl (Raise ValueError "attempt to get argmax of an empty sequence")
  | (l, c) :: rest => inr (idxmax_from l c rest)
  end.

Record metrics : Type := mkMetrics {
  total : nat;
  accuracy : Q;
  error_counts : list (string * nat);
  most_common : string
}.

(** [compute_metrics(df)].  The quotient is kept exact; the program holds
    the double nearest to it. *)
Definition compute_metrics (error_label : list string) : result metrics :=
  let total := length error_label in
  let correct := count_eq "CORRECT" error_label in
  let accuracy :=
    if Nat.eqb total 0 then 0%Q
    else (inject_Z (Z.of_nat correct) / inject_Z (Z.of_nat total))%Q in
  let error_counts := value_counts error_label in
  let tmp := series_drop "CORRECT" error_counts in
  match (if Nat.eqb (length tmp) 0 then inr "CORRECT" else idxmax tmp) with
  | inl e => inl e
  | inr most_common => inr (mkMetrics total accuracy error_counts most_common)
  end.

(** [total - (df["error_label"] == "CORRECT").sum()], the number shown as
    Total Failures. *)
Definition failures (error_label : list string) : Z :=
  (Z.of_nat (length error_label)
   - Z.of_nat (count_eq "CORRECT" error_label))%Z.

(** ** Label colours *)

Definition ERROR_COLORS : list (string * string) :=
  [ ("ARITHMETIC_ERROR", "#FFE5E5");
    ("WRONG_METRIC_OR_CONCEPT", "#FFF4CC");
    ("CONTEXT_MISUSE_OR_HALLUCINATION", "#EFE8FF");
    ("MISSING_OR_WRONG_ASSUMPTION", "#FFECCC");
    ("NON_ANSWER_OR_GENERIC", "#F0F0F0");
    ("CORRECT", "#D8F5D0") ].

Definition ERROR_TEXT_COLORS : list (string * string) :=
  [ ("ARITHMETIC_ERROR", "#B42318");
    ("WRONG_METRIC_OR_CONCEPT", "#92400E");
    ("CONTEXT_MISUSE_OR_HALLUCINATION", "#4C1D95");
    ("MISSING_OR_WRONG_ASSUMPTION", "#92400E");
    ("NON_ANSWER_OR_GENERIC", "#374151");
    ("CORRECT", "#166534") ].

(** The background and text colour of a label's pill:
    [ERROR_COLORS.get(label, "#EEE")] and
    [ERROR_TEXT_COLORS.get(label, "#111")]. *)
Definition pill_colors (label : string) : string * string :=
  (row_get ERROR_COLORS label "#EEE", row_get ERROR_TEXT_COLORS label "#111").

(** ** Navigation.  Every interaction reruns the script from the top.
    [st.button] returns [True] when that button was clicked on the page of
    the previous run; its [disabled] argument only sets how the button is
    drawn on the page this run produces. *)

Inductive click : Type := NoClick | ClickPrevious | ClickNext.

(** The page a run leaves on screen, with the index it stored. *)
Record page : Type := mkPage {
  deep_index : Z;
  previous_disabled : bool;
  next_disabled : bool
}.

Definition st_button (clicked disabled : bool) : bool := clicked.

Definition is_previous (c : click) : bool :=
  match c with ClickPrevious => true | _ => false end.

Definition is_next (c : click) : bool :=
  match c with ClickNext => true | _ => false end.

(** One run of the navigation block of [main] on a table of [len_df] rows,
    from the stored index [index] and the click that caused the run. *)
Definition navigate (len_df : Z) (index : Z) (c : click) : page :=
  let previous_off := (index <=? 0)%Z in
  let index := if st_button (is_previous c) previous_off
               then (index - 1)%Z else index in
  let next_off := (len_df - 1 <=? index)%Z in
  let index := if st_button (is_next c) next_off
               then (index + 1)%Z else index in
  mkPage index previous_off next_off.

(** The first run of a session: [deep_index] is created as 0. *)
Definition first_page (len_df : Z) : page := navigate len_df 0 NoClick.

(** A click the page allows: a button drawn disabled cannot be clicked. *)
Definition clickable (p : page) (c : click) : bool :=
  match c with
  | NoClick => true
  | ClickPrevious => negb (previous_disabled p)
  | ClickNext => negb (next_disabled p)
  end.

(** The pages of a session: each click is made on the page of the run
    before it; [None] when a click names a disabled button. *)
Fixpoint session (len_df : Z) (p : page) (clicks : list click) : option page :=
  match clicks with
  | [] => Some p
  | c :: rest =>
      if clickable p c
      then session len_df (navigate len_df (deep_index p) c) rest
      else None
  end.

(** [df.iloc[idx]] finds a row for [-len <= idx < len] and raises
    otherwise. *)
Definition iloc_in_bounds (len_df idx : Z) : bool :=
  ((- len_df <=? idx) && (idx <? len_df))%Z.

(* ===================================================================== *)
(** * Notions used in the statements *)
(* ===================================================================== *)

(** The row has the two cells the loop reads with [row[...]]. *)
Definition has_question_answer (row : Series) : bool :=
  match assoc "question" row, assoc "answer" row with
  | Some _, Some _ => true
  | _, _ => false
  end.

(** The rationale [label_failure] stores when its [try] raised [e]. *)
Definition diagnostic (e : exn) : string :=
  if is_JSONDecodeError e then "JSON decode error: " ++ exn_str e
  else exn_str e.


(** The two requests behind a record. *)
Definition requests_of (r : record) : list request :=
  [ TargetRequest TARGET_MODEL (r_context r) (r_question r);
    JudgeRequest LABEL_MODEL (r_question r) (r_answer r) (model_answer r) ].

(** The rows the sample is drawn from. *)
Definition pool (ds : DataFrame) : list Series :=
  if has_column "question_type" ds
  then filter (isin "question_type" ["basic"; "assumption"]) (rows ds)
  else rows ds.

(** The number of rows of a column that hold [label]. *)
Definition rows_with (label : string) (col : list string) : nat :=
  count_occ string_dec col label.

(** What every page of a session satisfies: the stored index is at most
    one step outside the table, and a button drawn enabled still has a
    row to move to. *)
Definition page_inv (len_df : Z) (p : page) : Prop :=
  (-1 <= deep_index p <= len_df)%Z
  /\ (previous_disabled p = false -> 0 <= deep_index p)%Z
  /\ (next_disabled p = false -> deep_index p <= len_df - 1)%Z.

(* ===================================================================== *)
(** * Scripted services, for running the pipeline on concrete inputs *)
(* ===================================================================== *)

(** A service that answers the calls it receives from a fixed script and
    refuses every call once the script is used up. *)
Definition scripted_create (_ : request) (w : list (result (option string)))
  : result (option string) * list (result (option string)) :=
  match w with
  | [] => (inl (Raise OtherException "Connection error."), [])
  | r :: w' => (r, w')
  end.

Definition dq : string := String (ascii_of_nat 34) EmptyString.

(** The text [{"label": "FOO", "rationale": "why"}]. *)
Definition foo_json : string :=
  "{" ++ dq ++ "label" ++ dq ++ ": " ++ dq ++ "FOO" ++ dq ++ ", "
      ++ dq ++ "rationale" ++ dq ++ ": " ++ dq ++ "why" ++ dq ++ "}".

(** The text [{"label": "CORRECT", "rationale": "matches"}]. *)
Definition correct_json : string :=
  "{" ++ dq ++ "label" ++ dq ++ ": " ++ dq ++ "CORRECT" ++ dq ++ ", "
      ++ dq ++ "rationale" ++ dq ++ ": " ++ dq ++ "matches" ++ dq ++ "}".

(** [json.loads] on the documents used in the examples below; any other
    text is rejected the way the parser rejects a non-document. *)
Definition table_loads (s : string) : result pyval :=
  if String.eqb s foo_json then
    inr (PyDict [("label", PyStr "FOO"); ("rationale", PyStr "why")])
  else if String.eqb s correct_json then
    inr (PyDict [("label", PyStr "CORRECT"); ("rationale", PyStr "matches")])
  else if String.eqb s "[]" then
    inr (PyList [])
  else
    inl (Raise JSONDecodeError "Expecting value: line 1 column 1 (char 0)").

Definition sample_row (q a : string) : Series :=
  [("question", q); ("answer", a); ("context", "ctx");
   ("question_type", "basic"); ("company", "ACME")].

Definition two_samples : list Series :=
  [sample_row "q1" "a1"; sample_row "q2" "a2"].

(** A source of three records, one of them of a type the sampler leaves
    out. *)
Definition typed_source : DataFrame :=
  mkDataFrame ["question"; "answer"; "question_type"]
    [ [("question", "q1"); ("answer", "a1"); ("question_type", "basic")];
      [("question", "q2"); ("answer", "a2"); ("question_type", "conceptual")];
      [("question", "q3"); ("answer", "a3"); ("question_type", "assumption")] ].

(** The same kind of source without the question_type column. *)
Definition untyped_source : DataFrame :=
  mkDataFrame ["question"; "answer"]
    [ [("question", "q1"); ("answer", "a1")];
      [("question", "q2"); ("answer", "a2")];
      [("question", "q3"); ("answer", "a3")] ].

(** A shuffle to run the sampler with: the positions in reverse. *)
Definition reversed (m : nat) : list nat := rev (seq 0 m).

(** The table of the specification's example: 20 rows CORRECT, 5 rows
    ARITHMETIC_ERROR, 2 rows WRONG_METRIC_OR_CONCEPT. *)
Definition example_labels : list string :=
  repeat "CORRECT" 20 ++ repeat "ARITHMETIC_ERROR" 5
  ++ repeat "WRONG_METRIC_OR_CONCEPT" 2.

(** Ten rows, six of them CORRECT. *)
Definition ten_labels : list string :=
  repeat "CORRECT" 6 ++ repeat "NON_ANSWER_OR_GENERIC" 3 ++ ["UNKNOWN"].


(** The text [{"rationale": "why"}]. *)
Definition rationale_only_json : string :=
  "{" ++ dq ++ "rationale" ++ dq ++ ": " ++ dq ++ "why" ++ dq ++ "}".

(** [table_loads] with one more document. *)
Definition more_loads (s : string) : result pyval :=
  if String.eqb s rationale_only_json then
    inr (PyDict [("rationale", PyStr "why")])
  else table_loads s.


(* ===================================================================== *)
(** * The labeling pipeline ([label_failures.py]) *)
(* ===================================================================== *)

Section Lab.

(** The remote service. *)
Variable World : Type.

(** [client.chat.completions.create(...)] followed by
    [resp.choices[0].message.content]: the call raises, or yields the
    content of the first choice ([None] when the message has none). *)
Variable chat_completions_create :
  request -> World -> result (option string) * World.

(** [json.loads] *)
Variable json_loads : string -> result pyval.

(** [str.strip] *)
Variable str_strip : string -> string.

(** Computations that call the service and may raise. *)
Definition M (A : Type) : Type := World -> result A * World.

Definition ret {A : Type} (a : A) : M A := fun w => (inr a, w).

Definition raise {A : Type} (e : exn) : M A := fun w => (inl e, w).

Definition bind {A B : Type} (m : M A) (k : A -> M B) : M B :=
  fun w =>
    match m w with
    | (inl e, w') => (inl e, w')
    | (inr a, w') => k a w'
    end.

Definition lift {A : Type} (r : result A) : M A := fun w => (r, w).

(** [try: m  except Exception as e: h e] *)
Definition try_except {A : Type} (m : M A) (h : exn -> M A) : M A :=
  fun w =>
    match m w with
    | (inl e, w') => h e w'
    | (inr a, w') => (inr a, w')
    end.

Notation "x <- m ;; k" := (bind m (fun x => k))
  (at level 61, m at next level, right associativity).

(** A value is true in a condition: [None] and the empty text are not. *)
Definition truthy (content : option string) : bool :=
  match content with
  | None => false
  | Some s => negb (String.eqb s "")
  end.

Definition call_target_model (question context : string) : M string :=
  content <- chat_completions_create (TargetRequest TARGET_MODEL context question) ;;
  match content with
  | Some text => ret (str_strip text)
  | None =>
      raise (Raise AttributeError "'NoneType' object has no attribute 'strip'")
  end.

(** The body of the [try] in [label_failure]. *)
Definition label_failure_try (question truth model_answer : string)
  : M (pyval * pyval) :=
  content <- chat_completions_create
               (JudgeRequest LABEL_MODEL question truth model_answer) ;;
  match content with
  | Some text =>
      if truthy content then
        data <- lift (json_loads text) ;;
        label <- lift (py_get data "label" (PyStr "UNKNOWN")) ;;
        rationale <- lift (py_get data "rationale" (PyStr "")) ;;
        ret (label, rationale)
      else ret (PyStr "UNKNOWN", PyStr "No content returned in JSON")
  | None => ret (PyStr "UNKNOWN", PyStr "No content returned in JSON")
  end.

(** The two [except] clauses of [label_failure], in order. *)
Definition label_failure_except (e : exn) : M (pyval * pyval) :=
  if is_JSONDecodeError e then
    ret (PyStr "UNKNOWN", PyStr ("JSON decode error: " ++ exn_str e))
  else
    ret (PyStr "UNKNOWN", PyStr (exn_str e)).

Definition label_failure (question truth model_answer : string)
  : M (pyval * pyval) :=
  lr <- try_except (label_failure_try question truth model_answer)
                   label_failure_except ;;
  let label := fst lr in
  let rationale := snd lr in
  let label := if negb (py_in label ERROR_LABELS) then PyStr "UNKNOWN" else label in
  ret (label, rationale).

(** One iteration of the loop of [main]. *)
Definition main_iteration (row : Series) : M record :=
  question <- lift (row_getitem row "question") ;;
  answer <- lift (row_getitem row "answer") ;;
  let context := row_get row "context" "" in
  model_answer <- try_except (call_target_model question context)
                             (fun _ => ret "") ;;
  lr <- try_except (label_failure question answer model_answer)
                   (fun e => ret (PyStr "UNKNOWN", PyStr (exn_str e))) ;;
  ret (mkRecord question answer context
         (row_get row "question_type" "")
         (row_get row "company" "")
         (row_get row "file_link" "")
         (row_get row "file_name" "")
         model_answer (fst lr) (snd lr)).

(** The loop of [main] over the rows of the sample, appending to [records]. *)
Fixpoint main_loop (sample : list Series) (records : list record)
  : M (list record) :=
  match sample with
  | [] => ret records
  | row :: rest =>
      r <- main_iteration row ;;
      main_loop rest (records ++ [r])
  end.

(* ===================================================================== *)
(** * The sampler ([load_financeqa_sample]) *)
(* ===================================================================== *)

(** [numpy.random.RandomState(42).permutation(m)]: the shuffle of the
    positions [0 .. m-1] that [DataFrame.sample(random_state=42)] draws
    from, without replacement. *)
Variable seeded_permutation : nat -> list nat.

Hypothesis seeded_permutation_spec :
  forall m, Permutation (seeded_permutation m) (seq 0 m).

(** [df.iloc[positions]] on the rows. *)
Definition take_rows (positions : list nat) (l : list Series) : list Series :=
  map (fun i => nth i l []) positions.

(** [df.sample(n=n, random_state=42).reset_index(drop=True)] *)
Definition df_sample (n : Z) (df : DataFrame) : result DataFrame :=
  if (n <? 0)%Z then
    inl (Raise ValueError
           "A negative number of rows requested. Please provide `n` >= 0.")
  else if (len df <? n)%Z then
    inl (Raise ValueError
           "Cannot take a larger sample than population when 'replace=False'")
  else
    inr (mkDataFrame (columns df)
           (take_rows
              (firstn (Z.to_nat n) (seeded_permutation (length (rows df))))
              (rows df))).

(** [df.sample(frac=1.0, random_state=42).reset_index(drop=True)]: the
    number of rows drawn is [round(1.0 * len(df))]. *)
Definition df_sample_all (df : DataFrame) : result DataFrame :=
  df_sample (len df) df.

(** [load_financeqa_sample(n)] on the frame [ds] that [load_dataset]
    delivered. *)
Definition load_financeqa_sample (ds : DataFrame) (n : Z) : result DataFrame :=
  let df :=
    if has_column "question_type" ds
    then df_mask_isin "question_type" ["basic"; "assumption"] ds
    else ds in
  if (len df <=? n)%Z then df_sample_all df
  else df_sample n df.


(* ===================================================================== *)
(** * Properties of the labeling pipeline *)
(* ===================================================================== *)

Lemma checked_label_valid (label : pyval) :
  valid_label
    (if negb (py_in label ERROR_LABELS) then PyStr "UNKNOWN" else label).
Proof.
  destruct (py_in label ERROR_LABELS) eqn:Hin; simpl.
  - unfold py_in in Hin. apply existsb_exists in Hin as [s [Hs Heq]].
    destruct label; simpl in Heq; try discriminate.
    apply String.eqb_eq in Heq. subst s0.
    exists s. split; [reflexivity | left; exact Hs].
  - exists UNKNOWN. split; [reflexivity | right; reflexivity].
Qed.

Lemma label_failure_except_returns (e : exn) (w : World) :
  label_failure_except e w = (inr (PyStr "UNKNOWN", PyStr (diagnostic e)), w).
Proof.
  unfold label_failure_except, diagnostic.
  destruct (is_JSONDecodeError e); reflexivity.
Qed.

(** [label_failure] handles every exception of its [try] itself: it always
    returns a pair, with a label of the data model. *)
Lemma label_failure_returns (question truth answer : string) (w : World) :
  exists label rationale w',
    label_failure question truth answer w = (inr (label, rationale), w')
    /\ valid_label label.
Proof.
  unfold label_failure. unfold bind at 1. unfold try_except.
  destruct (label_failure_try question truth answer w) as [[e | [l r]] w1].
  - rewrite label_failure_except_returns. simpl.
    exists (PyStr "UNKNOWN"), (PyStr (diagnostic e)), w1.
    split; [reflexivity |].
    exists UNKNOWN. split; [reflexivity | right; reflexivity].
  - simpl. eexists _, r, w1. split; [reflexivity |].
    apply checked_label_valid.
Qed.

(** When the judge call raises, the handlers of [label_failure] turn the
    exception into the UNKNOWN label and its text into the rationale. *)
Lemma label_failure_call_raises (question truth answer : string)
  (w w1 : World) (e : exn) :
  chat_completions_create (JudgeRequest LABEL_MODEL question truth answer) w
    = (inl e, w1) ->
  label_failure question truth answer w
    = (inr (PyStr "UNKNOWN", PyStr (diagnostic e)), w1).
Proof.
  intros Hcall.
  unfold label_failure, label_failure_try.
  unfold bind, try_except. rewrite Hcall.
  rewrite label_failure_except_returns. reflexivity.
Qed.

(** The target phase of an iteration never raises. *)
Lemma target_phase_returns (question context : string) (w : World) :
  exists answer w',
    try_except (call_target_model question context) (fun _ => ret "") w
      = (inr answer, w').
Proof.
  unfold try_except.
  destruct (call_target_model question context w) as [[e | s] w1].
  - exists "", w1. reflexivity.
  - exists s, w1. reflexivity.
Qed.

Lemma has_question_answer_cells (row : Series) :
  has_question_answer row = true ->
  exists q a, row_getitem row "question" = inr q
              /\ row_getitem row "answer" = inr a.
Proof.
  unfold has_question_answer, row_getitem.
  destruct (assoc "question" row) as [q |]; [| discriminate].
  destruct (assoc "answer" row) as [a |]; [| discriminate].
  intros _. exists q, a. split; reflexivity.
Qed.

(** An iteration either stops at a missing cell, before any call is made,
    or returns a record whose label is of the data model. *)
Lemma main_iteration_cases (row : Series) (w : World) :
  (has_question_answer row = false
   /\ exists e, main_iteration row w = (inl e, w))
  \/ (has_question_answer row = true
      /\ exists r w', main_iteration row w = (inr r, w')
                      /\ valid_label (error_label r)).
Proof.
  unfold main_iteration, has_question_answer, row_getitem.
  destruct (assoc "question" row) as [q |].
  2:{ left. split; [reflexivity |]. eexists. reflexivity. }
  destruct (assoc "answer" row) as [a |].
  2:{ left. split; [reflexivity |]. eexists. reflexivity. }
  right. split; [reflexivity |].
  unfold bind at 1. unfold lift at 1.
  unfold bind at 1. unfold lift at 1.
  unfold bind at 1.
  destruct (target_phase_returns q (row_get row "context" "") w)
    as [ans [w1 Hans]].
  rewrite Hans.
  unfold bind at 1. unfold try_except at 1.
  destruct (label_failure_returns q a ans w1) as [l [r [w2 [Hlf Hvalid]]]].
  rewrite Hlf. unfold ret.
  eexists _, w2. split; [reflexivity |]. simpl. exact Hvalid.
Qed.

(** The loop extends the accumulator by one record per row, as long as no
    row lacks a cell. *)
Lemma main_loop_appends (sample : list Series) :
  forall (records : list record) (w : World),
    forallb has_question_answer sample = true ->
    exists new w',
      main_loop sample records w = (inr (records ++ new), w')
      /\ length new = length sample
      /\ Forall (fun r => valid_label (error_label r)) new.
Proof.
  induction sample as [| row rest IH]; intros records w Hqa.
  - exists [], w. simpl. unfold ret. rewrite app_nil_r. auto.
  - simpl in Hqa. apply andb_true_iff in Hqa as [Hrow Hrest].
    destruct (main_iteration_cases row w) as [[Hno _] | [_ [r [w1 [Hit Hv]]]]].
    { congruence. }
    destruct (IH (records ++ [r]) w1 Hrest) as [new [w2 [Hloop [Hlen Hall]]]].
    exists (r :: new), w2. simpl. unfold bind. rewrite Hit.
    rewrite Hloop. rewrite <- app_assoc. simpl.
    repeat split; auto.
Qed.

(** Whatever the rows are, the records of a completed loop carry labels of
    the data model. *)
Lemma main_loop_labels (sample : list Series) :
  forall (records out : list record) (w w' : World),
    main_loop sample records w = (inr out, w') ->
    exists new,
      out = records ++ new
      /\ Forall (fun r => valid_label (error_label r)) new.
Proof.
  induction sample as [| row rest IH]; intros records out w w' Hrun.
  - simpl in Hrun. unfold ret in Hrun. inversion Hrun; subst.
    exists []. rewrite app_nil_r. auto.
  - simpl in Hrun. unfold bind in Hrun.
    destruct (main_iteration_cases row w)
      as [[_ [e He]] | [_ [r [w1 [Hit Hv]]]]].
    { rewrite He in Hrun. discriminate. }
    rewrite Hit in Hrun.
    destruct (IH _ _ _ _ Hrun) as [new [Hout Hall]].
    exists (r :: new). rewrite Hout, <- app_assoc. simpl. auto.
Qed.

Lemma py_in_false_iff (v : pyval) (l : list string) :
  py_in v l = false <-> (forall s, In s l -> v <> PyStr s).
Proof.
  unfold py_in. split.
  - intros Hno s Hs Heq. subst v.
    assert (existsb (py_eq_str (PyStr s)) l = true) as Hyes.
    { apply existsb_exists. exists s. split; [exact Hs |].
      simpl. apply String.eqb_refl. }
    congruence.
  - intros Hout. destruct (existsb (py_eq_str v) l) eqn:Hex; [| reflexivity].
    apply existsb_exists in Hex as [s [Hs Heq]].
    destruct v; simpl in Heq; try discriminate.
    apply String.eqb_eq in Heq. subst s0.
    exfalso. exact (Hout s Hs eq_refl).
Qed.

(** C1.  Every record of a completed run of the loop has an [error_label]
    that is one of the seven labels of ERROR_LABELS or the text UNKNOWN;
    and when the judge answers with a document whose label is outside
    ERROR_LABELS (FOO, say), [label_failure] returns UNKNOWN in its place. *)
Theorem error_label_in_label_set :
  (forall (sample : list Series) (w w' : World) (records : list record),
      main_loop sample [] w = (inr records, w') ->
      Forall (fun r => valid_label (error_label r)) records)
  /\ (forall (question truth answer text : string) (w w1 : World)
             (items : list (string * pyval)) (v : pyval),
        chat_completions_create
          (JudgeRequest LABEL_MODEL question truth answer) w
          = (inr (Some text), w1) ->
        text <> "" ->
        json_loads text = inr (PyDict items) ->
        assoc "label" items = Some v ->
        (forall s, In s ERROR_LABELS -> v <> PyStr s) ->
        exists rationale,
          label_failure question truth answer w
            = (inr (PyStr "UNKNOWN", rationale), w1)).
Proof.
  split.
  - intros sample w w' records Hrun.
    destruct (main_loop_labels _ _ _ _ _ Hrun) as [new [Hout Hall]].
    subst records. exact Hall.
  - intros question truth answer text w w1 items v Hcall Htext Hjson Hlabel Hout.
    apply py_in_false_iff in Hout.
    unfold label_failure, label_failure_try.
    unfold bind, try_except, lift, ret. rewrite Hcall.
    assert (truthy (Some text) = true) as Htruthy.
    { simpl. destruct (String.eqb_spec text ""); [contradiction | reflexivity]. }
    rewrite Htruthy, Hjson. cbn [py_get]. rewrite Hlabel. cbn [fst snd].
    rewrite Hout. simpl. eexists. reflexivity.
Qed.

(** C2.  The loop returns exactly one record per sampled row, whatever the
    remote calls do, raising on every sample included. *)
Theorem output_count_equals_sample_count :
  forall (sample : list Series) (w : World),
    forallb has_question_answer sample = true ->
    exists records w',
      main_loop sample [] w = (inr records, w')
      /\ length records = length sample.
Proof.
  intros sample w Hqa.
  destruct (main_loop_appends sample [] w Hqa) as [new [w' [Hrun [Hlen _]]]].
  exists new, w'. split; [exact Hrun | exact Hlen].
Qed.

(** C3, amended.  When the judge call of an iteration raises [e], the
    record stores the label UNKNOWN and, as rationale, the text of the
    exception ([str(e)], after the words JSON decode error for a
    JSONDecodeError); the rationale is non-empty whenever that text is. *)
Theorem judge_failure_stores_unknown :
  forall (row : Series) (question truth answer : string)
         (w w1 w2 : World) (e : exn),
    row_getitem row "question" = inr question ->
    row_getitem row "answer" = inr truth ->
    try_except (call_target_model question (row_get row "context" ""))
               (fun _ => ret "") w = (inr answer, w1) ->
    chat_completions_create
      (JudgeRequest LABEL_MODEL question truth answer) w1 = (inl e, w2) ->
    exists r,
      main_iteration row w = (inr r, w2)
      /\ error_label r = PyStr "UNKNOWN"
      /\ error_rationale r = PyStr (diagnostic e)
      /\ (exn_str e <> "" -> error_rationale r <> PyStr "").
Proof.
  intros row question truth answer w w1 w2 e Hq Ha Htarget Hjudge.
  unfold main_iteration. rewrite Hq, Ha.
  unfold bind at 1. unfold lift at 1.
  unfold bind at 1. unfold lift at 1.
  unfold bind at 1. rewrite Htarget.
  unfold bind at 1. unfold try_except at 1.
  rewrite (label_failure_call_raises _ _ _ _ _ _ Hjudge).
  unfold ret. eexists. split; [reflexivity |]. simpl.
  split; [reflexivity |]. split; [reflexivity |].
  intros Hne Heq. injection Heq as Heq. unfold diagnostic in Heq.
  destruct (is_JSONDecodeError e); [discriminate | contradiction].
Qed.

(** C7.  When the target call of an iteration raises, the iteration does
    not: the record stores the empty text as [model_answer], the judge is
    called with that empty answer on the state the failed call left, and
    the loop goes on with the remaining rows. *)
Theorem target_failure_continues :
  forall (row : Series) (question truth : string) (w w1 : World) (e : exn),
    row_getitem row "question" = inr question ->
    row_getitem row "answer" = inr truth ->
    call_target_model question (row_get row "context" "") w = (inl e, w1) ->
    exists r w2,
      main_iteration row w = (inr r, w2)
      /\ model_answer r = ""
      /\ label_failure question truth "" w1
           = (inr (error_label r, error_rationale r), w2)
      /\ (forall rest records,
             main_loop (row :: rest) records w
               = main_loop rest (records ++ [r]) w2).
Proof.
  intros row question truth w w1 e Hq Ha Htarget.
  destruct (label_failure_returns question truth "" w1)
    as [l [rat [w2 [Hlf _]]]].
  assert (exists r, main_iteration row w = (inr r, w2)
                    /\ model_answer r = ""
                    /\ error_label r = l /\ error_rationale r = rat)
    as [r [Hit [Hm [Hl Hr]]]].
  { unfold main_iteration. rewrite Hq, Ha.
    unfold bind at 1. unfold lift at 1.
    unfold bind at 1. unfold lift at 1.
    unfold bind at 1. unfold try_except at 1. rewrite Htarget.
    unfold ret at 1.
    unfold bind at 1. unfold try_except at 1. rewrite Hlf.
    unfold ret. eexists. split; [reflexivity |]. simpl. auto. }
  exists r, w2. split; [exact Hit |]. split; [exact Hm |].
  split; [rewrite Hl, Hr; exact Hlf |].
  intros rest records. simpl. unfold bind. rewrite Hit. reflexivity.
Qed.

(* ===================================================================== *)
(** * Properties of the sampler *)
(* ===================================================================== *)

Lemma take_rows_seq_from (l pre : list Series) :
  map (fun i => nth i (pre ++ l) []) (seq (length pre) (length l)) = l.
Proof.
  revert pre. induction l as [| x l IH]; intros pre; simpl.
  - reflexivity.
  - rewrite app_nth2 by lia. rewrite Nat.sub_diag. simpl. f_equal.
    specialize (IH (pre ++ [x])).
    rewrite <- app_assoc in IH. simpl in IH.
    rewrite length_app in IH. simpl in IH.
    rewrite Nat.add_1_r in IH. exact IH.
Qed.

Lemma take_rows_seq (l : list Series) :
  take_rows (seq 0 (length l)) l = l.
Proof. exact (take_rows_seq_from l []). Qed.

Lemma take_rows_shuffle (l : list Series) :
  Permutation (take_rows (seeded_permutation (length l)) l) l.
Proof.
  rewrite <- (take_rows_seq l) at 3.
  unfold take_rows. apply Permutation_map. apply seeded_permutation_spec.
Qed.

Lemma seeded_permutation_length (m : nat) :
  length (seeded_permutation m) = m.
Proof.
  rewrite (Permutation_length (seeded_permutation_spec m)).
  apply length_seq.
Qed.

(** What [df.sample] returns within its domain: the first [n] rows of the
    shuffled frame. *)
Lemma df_sample_rows (n : Z) (df : DataFrame) :
  (0 <= n <= len df)%Z ->
  df_sample n df
    = inr (mkDataFrame (columns df)
             (firstn (Z.to_nat n)
                (take_rows (seeded_permutation (length (rows df))) (rows df)))).
Proof.
  intros [Hlo Hhi]. unfold df_sample.
  destruct (Z.ltb_spec n 0); [lia |].
  destruct (Z.ltb_spec (len df) n); [lia |].
  unfold take_rows. rewrite firstn_map. reflexivity.
Qed.

Lemma load_financeqa_sample_rows (ds : DataFrame) (n : Z) :
  (0 <= n)%Z ->
  exists out,
    load_financeqa_sample ds n = inr out
    /\ rows out
       = firstn (Z.to_nat n)
           (take_rows (seeded_permutation (length (pool ds))) (pool ds)).
Proof.
  intros Hn. unfold load_financeqa_sample, pool, df_sample_all.
  set (df := if has_column "question_type" ds
             then df_mask_isin "question_type" ["basic"; "assumption"] ds
             else ds).
  assert (rows df
          = if has_column "question_type" ds
            then filter (isin "question_type" ["basic"; "assumption"]) (rows ds)
            else rows ds) as Hrows.
  { unfold df. destruct (has_column "question_type" ds); reflexivity. }
  rewrite <- Hrows.
  destruct (Z.leb_spec (len df) n) as [Hle | Hgt].
  - rewrite df_sample_rows by (unfold len; lia).
    eexists. split; [reflexivity |]. simpl.
    assert (length (take_rows (seeded_permutation (length (rows df))) (rows df))
            = length (rows df)) as Hlen.
    { unfold take_rows. rewrite length_map. apply seeded_permutation_length. }
    rewrite !firstn_all2; [reflexivity | |]; rewrite Hlen; unfold len in *; lia.
  - rewrite df_sample_rows by lia.
    eexists. split; reflexivity.
Qed.


(** The sample consists of rows of the pool. *)
Lemma sampler_sample_of_pool (ds : DataFrame) (n : Z) :
  (0 <= n)%Z ->
  exists out,
    load_financeqa_sample ds n = inr out
    /\ (forall row, In row (rows out) -> In row (pool ds)).
Proof.
  intros Hn.
  destruct (load_financeqa_sample_rows ds n Hn) as [out [Hload Hrows]].
  exists out. split; [exact Hload |]. intros row Hin.
  pose proof (take_rows_shuffle (pool ds)) as Hperm.
  rewrite <- (firstn_skipn (Z.to_nat n)
                (take_rows (seeded_permutation (length (pool ds))) (pool ds)))
    in Hperm.
  apply (Permutation_in _ Hperm). apply in_or_app. left.
  rewrite <- Hrows. exact Hin.
Qed.

(** C4.  For a count [n >= 0] the sampler returns [min(n, M)] rows, [M]
    being the number of rows left by the category filter: they are drawn
    from those rows without replacement, all of them (shuffled) when
    [M <= n], and none when the source is empty. *)
Theorem sampler_returns_min_count :
  forall (ds : DataFrame) (n : Z),
    (0 <= n)%Z ->
    exists out,
      load_financeqa_sample ds n = inr out
      /\ len out = Z.min n (Z.of_nat (length (pool ds)))
      /\ (exists rest, Permutation (rows out ++ rest) (pool ds))
      /\ ((Z.of_nat (length (pool ds)) <= n)%Z ->
          Permutation (rows out) (pool ds))
      /\ (rows ds = [] -> rows out = []).
Proof.
  intros ds n Hn.
  destruct (load_financeqa_sample_rows ds n Hn) as [out [Hload Hrows]].
  exists out. split; [exact Hload |].
  pose proof (take_rows_shuffle (pool ds)) as Hperm.
  set (shuffled := take_rows (seeded_permutation (length (pool ds))) (pool ds))
    in *.
  repeat split.
  - unfold len. rewrite Hrows, length_firstn.
    rewrite (Permutation_length Hperm). lia.
  - exists (skipn (Z.to_nat n) shuffled).
    rewrite Hrows, firstn_skipn. exact Hperm.
  - intros Hall. rewrite Hrows, firstn_all2; [exact Hperm |].
    rewrite (Permutation_length Hperm). lia.
  - intros Hempty.
    assert (pool ds = []) as Hpool.
    { unfold pool. rewrite Hempty.
      destruct (has_column "question_type" ds); reflexivity. }
    rewrite Hrows. unfold shuffled. rewrite Hpool. simpl.
    unfold take_rows.
    pose proof (seeded_permutation_length 0) as H0.
    destruct (seeded_permutation 0); [| discriminate].
    simpl. apply firstn_nil.
Qed.

(** C10.  A source without a question_type column is sampled whole: the
    rows are drawn from all its records, whatever their category.  With
    the column, every sampled row is of type basic or assumption. *)
Theorem sampler_filters_only_with_column :
  forall (ds : DataFrame) (n : Z),
    (has_column "question_type" ds = false ->
     (0 <= n)%Z ->
     exists out,
       load_financeqa_sample ds n = inr out
       /\ len out = Z.min n (len ds)
       /\ (exists rest, Permutation (rows out ++ rest) (rows ds))
       /\ ((len ds <= n)%Z -> Permutation (rows out) (rows ds)))
    /\ (has_column "question_type" ds = true ->
        forall out,
          load_financeqa_sample ds n = inr out ->
          Forall (fun row => isin "question_type" ["basic"; "assumption"] row
                             = true) (rows out)).
Proof.
  intros ds n. split.
  - intros Hcol Hn.
    destruct (load_financeqa_sample_rows ds n Hn) as [out [Hload Hrows]].
    assert (pool ds = rows ds) as Hpool by (unfold pool; rewrite Hcol; reflexivity).
    rewrite Hpool in Hrows.
    pose proof (take_rows_shuffle (rows ds)) as Hperm.
    exists out. split; [exact Hload |]. repeat split.
    + unfold len. rewrite Hrows, length_firstn.
      rewrite (Permutation_length Hperm). lia.
    + exists (skipn (Z.to_nat n)
                (take_rows (seeded_permutation (length (rows ds))) (rows ds))).
      rewrite Hrows, firstn_skipn. exact Hperm.
    + intros Hall. rewrite Hrows, firstn_all2; [exact Hperm |].
      rewrite (Permutation_length Hperm). unfold len in Hall. lia.
  - intros Hcol out Hload.
    destruct (Z.ltb_spec n 0) as [Hneg | Hn].
    + unfold load_financeqa_sample in Hload. rewrite Hcol in Hload.
      unfold df_sample_all, df_sample in Hload.
      destruct (Z.leb_spec
                  (len (df_mask_isin "question_type" ["basic"; "assumption"] ds))
                  n) as [Hle | Hgt].
      * unfold len in Hle. lia.
      * destruct (Z.ltb_spec n 0); [discriminate | lia].
    + destruct (sampler_sample_of_pool ds n Hn) as [out' [Hload' Hsub]].
      rewrite Hload in Hload'. injection Hload' as <-.
      apply Forall_forall. intros row Hin.
      apply Hsub in Hin. unfold pool in Hin. rewrite Hcol in Hin.
      apply filter_In in Hin. apply Hin.
Qed.

(* ===================================================================== *)
(** * Further properties of the labeling pipeline *)
(* ===================================================================== *)

(** The judge's answer was a non-empty text that [json.loads] accepted. *)
Lemma label_failure_try_document (question truth answer text : string)
  (w w1 : World) (data : pyval) :
  chat_completions_create (JudgeRequest LABEL_MODEL question truth answer) w
    = (inr (Some text), w1) ->
  text <> "" ->
  json_loads text = inr data ->
  label_failure_try question truth answer w
    = (match py_get data "label" (PyStr "UNKNOWN") with
       | inl e => inl e
       | inr label =>
           match py_get data "rationale" (PyStr "") with
           | inl e => inl e
           | inr rationale => inr (label, rationale)
           end
       end, w1).
Proof.
  intros Hcall Htext Hjson.
  unfold label_failure_try, bind, lift, ret. rewrite Hcall.
  assert (truthy (Some text) = true) as Htruthy.
  { simpl. destruct (String.eqb_spec text ""); [contradiction | reflexivity]. }
  rewrite Htruthy, Hjson.
  destruct (py_get data "label" (PyStr "UNKNOWN")); [reflexivity |].
  destruct (py_get data "rationale" (PyStr "")); reflexivity.
Qed.

(** The state [label_failure] leaves is the one its request left. *)
Lemma label_failure_state (question truth answer : string) (w : World) :
  snd (label_failure question truth answer w)
  = snd (chat_completions_create
           (JudgeRequest LABEL_MODEL question truth answer) w).
Proof.
  unfold label_failure, label_failure_try, label_failure_except.
  unfold bind, try_except, lift, ret.
  destruct (chat_completions_create
              (JudgeRequest LABEL_MODEL question truth answer) w)
    as [[e | [text |]] w1]; simpl.
  - destruct (is_JSONDecodeError e); reflexivity.
  - destruct (String.eqb text ""); simpl; [reflexivity |].
    destruct (json_loads text) as [e | data]; simpl.
    + destruct (is_JSONDecodeError e); reflexivity.
    + destruct (py_get data "label" (PyStr "UNKNOWN")) as [e | l]; simpl.
      * destruct (is_JSONDecodeError e); reflexivity.
      * destruct (py_get data "rationale" (PyStr "")) as [e | r]; simpl.
        -- destruct (is_JSONDecodeError e); reflexivity.
        -- reflexivity.
  - reflexivity.
Qed.

(** An iteration on a row with both cells: the target request, then the
    judge request with the answer kept from the first, then the record. *)
Lemma main_iteration_record (row : Series) (question truth : string)
  (w : World) :
  row_getitem row "question" = inr question ->
  row_getitem row "answer" = inr truth ->
  let context := row_get row "context" "" in
  let target :=
    chat_completions_create (TargetRequest TARGET_MODEL context question) w in
  let answer :=
    match fst target with
    | inr (Some text) => str_strip text
    | _ => ""
    end in
  exists label rationale w2,
    label_failure question truth answer (snd target)
      = (inr (label, rationale), w2)
    /\ main_iteration row w
       = (inr (mkRecord question truth context
                 (row_get row "question_type" "")
                 (row_get row "company" "")
                 (row_get row "file_link" "")
                 (row_get row "file_name" "")
                 answer label rationale), w2).
Proof.
  intros Hq Ha. cbv zeta.
  destruct (chat_completions_create
              (TargetRequest TARGET_MODEL (row_get row "context" "") question)
              w) as [[e | [text |]] w1] eqn:Htarget; cbn [fst snd];
    match goal with
    | |- exists _ _ _, label_failure _ _ ?ans _ = _ /\ _ =>
        destruct (label_failure_returns question truth ans w1)
          as [label [rationale [w2 [Hlf _]]]]
    end;
    exists label, rationale, w2; (split; [exact Hlf |]);
    unfold main_iteration, call_target_model;
    unfold bind, lift, try_except, ret, raise;
    rewrite Hq, Ha, Htarget, Hlf; reflexivity.
Qed.

(** X1.  [label_failure] never lets an exception out: it always returns a
    pair, so the handler that [main] wraps around the call is never
    entered. *)
Theorem label_failure_never_raises :
  forall (question truth answer : string)
         (handler : exn -> M (pyval * pyval)) (w : World),
    (exists label rationale w',
        label_failure question truth answer w = (inr (label, rationale), w'))
    /\ try_except (label_failure question truth answer) handler w
       = label_failure question truth answer w.
Proof.
  intros question truth answer handler w.
  destruct (label_failure_returns question truth answer w)
    as [label [rationale [w' [Hlf _]]]].
  split.
  - exists label, rationale, w'. exact Hlf.
  - unfold try_except. rewrite Hlf. reflexivity.
Qed.

(** X2.  [label_failure] makes one request, the judge request for its
    three arguments: the state it leaves is the state that request left,
    whichever branch it takes afterwards. *)
Theorem label_failure_single_request :
  forall (question truth answer : string) (w : World),
    snd (label_failure question truth answer w)
    = snd (chat_completions_create
             (JudgeRequest LABEL_MODEL question truth answer) w).
Proof. exact label_failure_state. Qed.

(** X3.  When the judge's document is an object whose label is one of
    ERROR_LABELS, [label_failure] returns that label unchanged, with the
    document's rationale as it is (the empty text when the document has
    none). *)
Theorem label_failure_accepts_listed_label :
  forall (question truth answer text l : string) (w w1 : World)
         (items : list (string * pyval)),
    chat_completions_create (JudgeRequest LABEL_MODEL question truth answer) w
      = (inr (Some text), w1) ->
    text <> "" ->
    json_loads text = inr (PyDict items) ->
    assoc "label" items = Some (PyStr l) ->
    In l ERROR_LABELS ->
    label_failure question truth answer w
    = (inr (PyStr l,
            match assoc "rationale" items with
            | Some v => v
            | None => PyStr ""
            end), w1).
Proof.
  intros question truth answer text l w w1 items Hcall Htext Hjson Hlabel Hin.
  unfold label_failure, bind, try_except.
  rewrite (label_failure_try_document _ _ _ _ _ _ _ Hcall Htext Hjson).
  cbn [py_get]. rewrite Hlabel. unfold ret. cbn [fst snd].
  assert (py_in (PyStr l) ERROR_LABELS = true) as Hyes.
  { unfold py_in. apply existsb_exists. exists l.
    split; [exact Hin | simpl; apply String.eqb_refl]. }
  rewrite Hyes. reflexivity.
Qed.

(** X4.  When the document is an object without a label entry, the label
    is UNKNOWN while the document's rationale is still returned. *)
Theorem label_failure_missing_label :
  forall (question truth answer text : string) (w w1 : World)
         (items : list (string * pyval)),
    chat_completions_create (JudgeRequest LABEL_MODEL question truth answer) w
      = (inr (Some text), w1) ->
    text <> "" ->
    json_loads text = inr (PyDict items) ->
    assoc "label" items = None ->
    label_failure question truth answer w
    = (inr (PyStr "UNKNOWN",
            match assoc "rationale" items with
            | Some v => v
            | None => PyStr ""
            end), w1).
Proof.
  intros question truth answer text w w1 items Hcall Htext Hjson Hlabel.
  unfold label_failure, bind, try_except.
  rewrite (label_failure_try_document _ _ _ _ _ _ _ Hcall Htext Hjson).
  cbn [py_get]. rewrite Hlabel. reflexivity.
Qed.

(** X5.  When the judge's message has no content ([None] or the empty
    text), nothing is parsed: the label is UNKNOWN and the rationale says
    that no content was returned. *)
Theorem label_failure_no_content :
  forall (question truth answer : string) (w w1 : World)
         (content : option string),
    chat_completions_create (JudgeRequest LABEL_MODEL question truth answer) w
      = (inr content, w1) ->
    content = None \/ content = Some "" ->
    label_failure question truth answer w
    = (inr (PyStr "UNKNOWN", PyStr "No content returned in JSON"), w1).
Proof.
  intros question truth answer w w1 content Hcall Hcontent.
  unfold label_failure, label_failure_try, bind, try_except, lift, ret.
  rewrite Hcall. destruct Hcontent as [-> | ->]; reflexivity.
Qed.

(** X6.  When [json.loads] rejects the judge's text with a
    JSONDecodeError, the label is UNKNOWN and the rationale is the
    parser's message after the words JSON decode error, hence never
    empty. *)
Theorem label_failure_decode_error :
  forall (question truth answer text : string) (w w1 : World) (e : exn),
    chat_completions_create (JudgeRequest LABEL_MODEL question truth answer) w
      = (inr (Some text), w1) ->
    text <> "" ->
    json_loads text = inl e ->
    exn_cls e = JSONDecodeError ->
    label_failure question truth answer w
    = (inr (PyStr "UNKNOWN", PyStr ("JSON decode error: " ++ exn_str e)), w1)
    /\ ("JSON decode error: " ++ exn_str e)%string <> "".
Proof.
  intros question truth answer text w w1 e Hcall Htext Hjson Hcls.
  split; [| discriminate].
  unfold label_failure, label_failure_try, bind, try_except, lift, ret.
  rewrite Hcall.
  assert (truthy (Some text) = true) as Htruthy.
  { simpl. destruct (String.eqb_spec text ""); [contradiction | reflexivity]. }
  rewrite Htruthy, Hjson.
  unfold label_failure_except, is_JSONDecodeError. rewrite Hcls. reflexivity.
Qed.

(** X7.  When the judge's text parses to something that is no object (a
    list, a number, a text, null), reading its label fails inside the
    [try]: the label is UNKNOWN and the rationale names the type that has
    no [get]. *)
Theorem label_failure_not_an_object :
  forall (question truth answer text : string) (w w1 : World) (data : pyval),
    chat_completions_create (JudgeRequest LABEL_MODEL question truth answer) w
      = (inr (Some text), w1) ->
    text <> "" ->
    json_loads text = inr data ->
    (forall items, data <> PyDict items) ->
    label_failure question truth answer w
    = (inr (PyStr "UNKNOWN",
            PyStr ("'" ++ type_name data ++ "' object has no attribute 'get'")),
       w1).
Proof.
  intros question truth answer text w w1 data Hcall Htext Hjson Hno.
  unfold label_failure, bind, try_except.
  rewrite (label_failure_try_document _ _ _ _ _ _ _ Hcall Htext Hjson).
  destruct data; try reflexivity.
  exfalso. exact (Hno items eq_refl).
Qed.

(** X8.  An iteration on a row with both cells makes two requests in
    order: the target request for the row's context and question, then the
    judge request for the question, the true answer and the answer it
    stores, which is the stripped content of the target's message, or the
    empty text when the target call raised or its message had no
    content. *)
Theorem main_iteration_two_requests :
  forall (row : Series) (question truth : string) (w : World),
    row_getitem row "question" = inr question ->
    row_getitem row "answer" = inr truth ->
    let target :=
      chat_completions_create
        (TargetRequest TARGET_MODEL (row_get row "context" "") question) w in
    let answer :=
      match fst target with
      | inr (Some text) => str_strip text
      | _ => ""
      end in
    exists r,
      main_iteration row w
      = (inr r,
         snd (chat_completions_create
                (JudgeRequest LABEL_MODEL question truth answer) (snd target)))
      /\ model_answer r = answer.
Proof.
  intros row question truth w Hq Ha target answer.
  destruct (main_iteration_record row question truth w Hq Ha)
    as [label [rationale [w2 [Hlf Hrun]]]].
  fold target in Hlf, Hrun. fold answer in Hlf, Hrun.
  eexists. split.
  - rewrite Hrun. rewrite <- label_failure_state, Hlf. reflexivity.
  - reflexivity.
Qed.

(** X9.  A record repeats its row: question and answer are the row's
    cells, and context, question type, company, file link and file name
    are the row's cells or the empty text where the row has none. *)
Theorem record_repeats_row :
  forall (row : Series) (w w' : World) (r : record),
    main_iteration row w = (inr r, w') ->
    assoc "question" row = Some (r_question r)
    /\ assoc "answer" row = Some (r_answer r)
    /\ r_context r = row_get row "context" ""
    /\ r_question_type r = row_get row "question_type" ""
    /\ r_company r = row_get row "company" ""
    /\ r_file_link r = row_get row "file_link" ""
    /\ r_file_name r = row_get row "file_name" "".
Proof.
  intros row w w' r Hrun.
  destruct (main_iteration_cases row w)
    as [[_ [e He]] | [Hqa _]].
  { rewrite He in Hrun. discriminate. }
  destruct (has_question_answer_cells row Hqa) as [q [a [Hq Ha]]].
  destruct (main_iteration_record row q a w Hq Ha)
    as [label [rationale [w2 [_ Hrec]]]].
  rewrite Hrec in Hrun. injection Hrun as <- _.
  unfold row_getitem in Hq, Ha. simpl.
  destruct (assoc "question" row); [| discriminate].
  destruct (assoc "answer" row); [| discriminate].
  injection Hq as ->. injection Ha as ->.
  repeat split; reflexivity.
Qed.


Lemma main_iteration_cells (row : Series) (w w' : World) (r : record) :
  main_iteration row w = (inr r, w') ->
  assoc "question" row = Some (r_question r)
  /\ assoc "answer" row = Some (r_answer r).
Proof.
  intros Hrun.
  destruct (main_iteration_cases row w) as [[_ [e He]] | [Hqa _]].
  { rewrite He in Hrun. discriminate. }
  destruct (has_question_answer_cells row Hqa) as [q [a [Hq Ha]]].
  destruct (main_iteration_record row q a w Hq Ha)
    as [label [rationale [w2 [_ Hrec]]]].
  rewrite Hrec in Hrun. injection Hrun as <- _.
  unfold row_getitem in Hq, Ha. simpl.
  destruct (assoc "question" row); [| discriminate].
  destruct (assoc "answer" row); [| discriminate].
  injection Hq as ->. injection Ha as ->. split; reflexivity.
Qed.



Lemma main_loop_cells (sample : list Series) :
  forall (records out : list record) (w w' : World),
    main_loop sample records w = (inr out, w') ->
    exists new,
      out = records ++ new
      /\ map (fun r => Some (r_question r)) new = map (assoc "question") sample
      /\ map (fun r => Some (r_answer r)) new = map (assoc "answer") sample.
Proof.
  induction sample as [| row rest IH]; intros records out w w' Hrun.
  - simpl in Hrun. unfold ret in Hrun. injection Hrun as <- _.
    exists []. rewrite app_nil_r. auto.
  - simpl in Hrun. unfold bind in Hrun.
    destruct (main_iteration row w) as [[e | r] w1] eqn:Hit; [discriminate |].
    destruct (main_iteration_cells _ _ _ _ Hit) as [Hq Ha].
    destruct (IH _ _ _ _ Hrun) as [new [Hout [Hqs Has]]].
    exists (r :: new). rewrite Hout, <- app_assoc. simpl.
    rewrite Hq, Ha, Hqs, Has. auto.
Qed.

(** X11.  The records come in the order of the sample: the questions and
    answers of the records are, position by position, the question and
    answer cells of the sampled rows. *)
Theorem records_follow_sample_order :
  forall (sample : list Series) (w w' : World) (records : list record),
    main_loop sample [] w = (inr records, w') ->
    map (fun r => Some (r_question r)) records = map (assoc "question") sample
    /\ map (fun r => Some (r_answer r)) records = map (assoc "answer") sample.
Proof.
  intros sample w w' records Hrun.
  destruct (main_loop_cells _ _ _ _ _ Hrun) as [new [Hout Hcells]].
  simpl in Hout. subst records. exact Hcells.
Qed.



(** X13.  A negative count is an error: the sampler raises the ValueError
    of [DataFrame.sample], whatever the source holds. *)
Theorem sampler_rejects_negative_count :
  forall (ds : DataFrame) (n : Z),
    (n < 0)%Z ->
    exists message,
      load_financeqa_sample ds n = inl (Raise ValueError message).
Proof.
  intros ds n Hn. unfold load_financeqa_sample, df_sample_all.
  set (df := if has_column "question_type" ds
             then df_mask_isin "question_type" ["basic"; "assumption"] ds
             else ds).
  destruct (Z.leb_spec (len df) n) as [Hle | Hgt].
  - unfold len in Hle. lia.
  - unfold df_sample. destruct (Z.ltb_spec n 0); [| lia].
    eexists. reflexivity.
Qed.



End Lab.

(* ===================================================================== *)
(** * The requests of a run *)
(* ===================================================================== *)

Section RequestLog.

Variable World : Type.
Variable chat_completions_create :
  request -> World -> result (option string) * World.
Variable json_loads : string -> result pyval.
Variable str_strip : string -> string.

(** The service with a journal: every request is written down, in order,
    beside the state of the service. *)
Definition logged (req : request) (s : World * list request)
  : result (option string) * (World * list request) :=
  let (r, w') := chat_completions_create req (fst s) in
  (r, (w', snd s ++ [req])).

Lemma main_iteration_log (row : Series) (w w' : World)
  (journal journal' : list request) (r : record) :
  main_iteration _ logged json_loads str_strip row (w, journal)
    = (inr r, (w', journal')) ->
  journal' = journal ++ requests_of r.
Proof.
  intros Hrun.
  destruct (main_iteration_cases _ logged json_loads str_strip row (w, journal))
    as [[_ [e He]] | [Hqa _]].
  { rewrite He in Hrun. discriminate. }
  destruct (has_question_answer_cells row Hqa) as [q [a [Hq Ha]]].
  destruct (main_iteration_record _ logged json_loads str_strip row q a
              (w, journal) Hq Ha)
    as [label [rationale [s2 [Hlf Hrec]]]].
  rewrite Hrec in Hrun. injection Hrun as Hr Hs2. subst r s2.
  pose proof (label_failure_state _ logged json_loads q a
                (match
                    fst (logged (TargetRequest TARGET_MODEL
                                   (row_get row "context" "") q) (w, journal))
                  with
                  | inr (Some text) => str_strip text
                  | _ => ""
                  end)
                (snd (logged (TargetRequest TARGET_MODEL
                                (row_get row "context" "") q) (w, journal))))
    as Hstate.
  rewrite Hlf in Hstate. clear Hlf Hrec.
  unfold requests_of. cbn [r_context r_question r_answer model_answer].
  unfold logged in *. cbn [fst snd] in *.
  destruct (chat_completions_create
              (TargetRequest TARGET_MODEL (row_get row "context" "") q) w)
    as [t w1].
  cbn [fst snd] in *.
  destruct (chat_completions_create
              (JudgeRequest LABEL_MODEL q a
                 match t with
                 | inr (Some text) => str_strip text
                 | _ => ""
                 end) w1) as [j w3].
  cbn [fst snd] in Hstate.
  injection Hstate as _ ->. rewrite <- app_assoc. reflexivity.
Qed.

Lemma main_loop_log (sample : list Series) :
  forall (records out : list record) (w w' : World)
         (journal journal' : list request),
    main_loop _ logged json_loads str_strip sample records (w, journal)
      = (inr out, (w', journal')) ->
    exists new,
      out = records ++ new
      /\ journal' = journal ++ flat_map requests_of new.
Proof.
  induction sample as [| row rest IH];
    intros records out w w' journal journal' Hrun.
  - simpl in Hrun. unfold ret in Hrun. injection Hrun as <- _ <-.
    exists []. simpl. rewrite !app_nil_r. auto.
  - simpl in Hrun. unfold bind in Hrun.
    destruct (main_iteration _ logged json_loads str_strip row (w, journal))
      as [[e | r] [w1 journal1]] eqn:Hit; [discriminate |].
    apply main_iteration_log in Hit.
    destruct (IH _ _ _ _ _ _ Hrun) as [new [Hout Hlog]].
    exists (r :: new). rewrite Hout, Hlog, Hit. simpl.
    rewrite <- !app_assoc. simpl. auto.
Qed.

(** X15.  A run makes two requests per record and no other: the journal
    of a completed loop is, record after record, the target request for
    the record's context and question followed by the judge request for its
    question, answer and model answer. *)
Theorem requests_of_a_run :
  forall (sample : list Series) (w w' : World) (records : list record)
         (journal : list request),
    main_loop _ logged json_loads str_strip sample [] (w, [])
      = (inr records, (w', journal)) ->
    journal = flat_map requests_of records
    /\ length journal = 2 * length sample.
Proof.
  intros sample w w' records journal Hrun.
  destruct (main_loop_log _ _ _ _ _ _ _ Hrun) as [new [Hout Hlog]].
  simpl in Hout, Hlog. subst new. split; [exact Hlog |].
  assert (length records = length sample) as Hlen.
  { destruct (main_loop_cells _ logged json_loads str_strip _ _ _ _ _ Hrun)
      as [new [Hout [Hqs _]]].
    simpl in Hout. subst new.
    rewrite <- (length_map (fun r => Some (r_question r)) records), Hqs.
    apply length_map. }
  rewrite Hlog, <- Hlen. clear.
  induction records as [| r records IH]; simpl; [reflexivity | lia].
Qed.

End RequestLog.

(* ===================================================================== *)
(** * Properties of the viewer's metrics *)
(* ===================================================================== *)

Lemma count_eq_rows_with (label : string) (col : list string) :
  count_eq label col = rows_with label col.
Proof.
  unfold count_eq, rows_with. induction col as [| x col IH]; simpl.
  - reflexivity.
  - destruct (String.eqb_spec x label) as [Heq | Hne];
      destruct (string_dec x label) as [Heq' | Hne']; try congruence;
      simpl; rewrite IH; reflexivity.
Qed.

Lemma unique_In (col : list string) (x : string) :
  In x (unique col) <-> In x col.
Proof.
  induction col as [| y col IH]; simpl.
  - tauto.
  - rewrite filter_In, IH. split.
    + intros [H | [H _]]; auto.
    + intros [H | H]; [left; exact H |].
      destruct (String.eqb_spec x y) as [Heq | Hne].
      * left. congruence.
      * right. split; [exact H | reflexivity].
Qed.

Lemma insert_desc_perm (p : string * nat) (s : list (string * nat)) :
  Permutation (insert_desc p s) (p :: s).
Proof.
  induction s as [| q s IH]; simpl.
  - apply Permutation_refl.
  - destruct (Nat.leb (snd q) (snd p)).
    + apply Permutation_refl.
    + apply perm_trans with (q :: p :: s).
      * apply perm_skip. exact IH.
      * apply perm_swap.
Qed.

Lemma sort_values_desc_perm (s : list (string * nat)) :
  Permutation (sort_values_desc s) s.
Proof.
  unfold sort_values_desc. induction s as [| p s IH]; simpl.
  - apply perm_nil.
  - apply perm_trans with (p :: fold_right insert_desc [] s).
    + apply insert_desc_perm.
    + apply perm_skip. exact IH.
Qed.

(** The entries of [value_counts]: the values present, each with its
    number of rows. *)
Lemma value_counts_In (col : list string) (l : string) (c : nat) :
  In (l, c) (value_counts col) <-> In l col /\ c = rows_with l col.
Proof.
  unfold value_counts. split.
  - intros Hin.
    apply (Permutation_in _ (sort_values_desc_perm _)) in Hin.
    apply in_map_iff in Hin as [x [Heq Hx]].
    injection Heq as <- <-. split.
    + apply unique_In. exact Hx.
    + apply count_eq_rows_with.
  - intros [Hin ->].
    apply (Permutation_in _ (Permutation_sym (sort_values_desc_perm _))).
    apply in_map_iff. exists l. split.
    + rewrite count_eq_rows_with. reflexivity.
    + apply unique_In. exact Hin.
Qed.

Lemma series_drop_In (label : string) (s : list (string * nat))
  (p : string * nat) :
  In p (series_drop label s) <-> In p s /\ fst p <> label.
Proof.
  unfold series_drop. rewrite filter_In.
  destruct (String.eqb_spec (fst p) label) as [Heq | Hne]; simpl.
  - split; [intros [_ H]; discriminate | intros [_ H]; contradiction].
  - tauto.
Qed.

(** The scan returns an entry of largest count. *)
Lemma idxmax_from_max (s : list (string * nat)) :
  forall (best : string) (n : nat),
    exists c,
      In (idxmax_from best n s, c) ((best, n) :: s)
      /\ (forall l' c', In (l', c') ((best, n) :: s) -> c' <= c).
Proof.
  induction s as [| [l c] s IH]; intros best n; simpl.
  - exists n. split; [left; reflexivity |].
    intros l' c' [Heq | []]. injection Heq as _ <-. lia.
  - destruct (Nat.ltb_spec n c) as [Hlt | Hge].
    + destruct (IH l c) as [m [Hin Hmax]].
      exists m. split.
      * right. exact Hin.
      * intros l' c' [Heq | Hrest].
        -- injection Heq as _ <-.
           specialize (Hmax l c (or_introl eq_refl)). lia.
        -- apply (Hmax l' c'). exact Hrest.
    + destruct (IH best n) as [m [Hin Hmax]].
      exists m. split.
      * destruct Hin as [Heq | Hin]; [left; exact Heq | right; right; exact Hin].
      * intros l' c' [Heq | [Heq | Hrest]].
        -- apply (Hmax l' c'). left. exact Heq.
        -- injection Heq as _ <-.
           specialize (Hmax best n (or_introl eq_refl)). lia.
        -- apply (Hmax l' c'). right. exact Hrest.
Qed.

(** [compute_metrics] never raises: [idxmax] is only reached on a
    non-empty series. *)
Lemma compute_metrics_returns (col : list string) :
  exists m,
    compute_metrics col = inr m
    /\ total m = length col
    /\ accuracy m
       = (if Nat.eqb (length col) 0 then 0%Q
          else (inject_Z (Z.of_nat (count_eq "CORRECT" col))
                / inject_Z (Z.of_nat (length col)))%Q)
    /\ error_counts m = value_counts col
    /\ match series_drop "CORRECT" (value_counts col) with
       | [] => most_common m = "CORRECT"
       | (l, c) :: rest => most_common m = idxmax_from l c rest
       end.
Proof.
  unfold compute_metrics.
  destruct (series_drop "CORRECT" (value_counts col)) as [| [l c] rest];
    simpl; eexists; repeat split; reflexivity.
Qed.

(** C5.  When some row has a label other than CORRECT, the metric reports
    a label other than CORRECT that no other such label outnumbers; with 5
    rows of ARITHMETIC_ERROR, 2 of WRONG_METRIC_OR_CONCEPT and 20 of
    CORRECT it reports ARITHMETIC_ERROR. *)
Theorem most_common_error_excludes_correct :
  (forall col : list string,
      (exists l, In l col /\ l <> "CORRECT") ->
      exists m,
        compute_metrics col = inr m
        /\ In (most_common m) col
        /\ most_common m <> "CORRECT"
        /\ (forall l, l <> "CORRECT" ->
                      rows_with l col <= rows_with (most_common m) col))
  /\ (forall col : list string,
        rows_with "ARITHMETIC_ERROR" col = 5 ->
        rows_with "WRONG_METRIC_OR_CONCEPT" col = 2 ->
        rows_with "CORRECT" col = 20 ->
        length col = 27 ->
        exists m,
          compute_metrics col = inr m
          /\ most_common m = "ARITHMETIC_ERROR").
Proof.
  assert (forall col : list string,
      (exists l, In l col /\ l <> "CORRECT") ->
      exists m,
        compute_metrics col = inr m
        /\ In (most_common m) col
        /\ most_common m <> "CORRECT"
        /\ (forall l, l <> "CORRECT" ->
                      rows_with l col <= rows_with (most_common m) col))
    as Hgeneral.
  { intros col [l0 [Hl0 Hne0]].
    destruct (compute_metrics_returns col) as [m [Hm [_ [_ [_ Hmost]]]]].
    exists m. split; [exact Hm |].
    assert (In (l0, rows_with l0 col) (series_drop "CORRECT" (value_counts col)))
      as Hentry.
    { apply series_drop_In. split; [| exact Hne0].
      apply value_counts_In. split; [exact Hl0 | reflexivity]. }
    destruct (series_drop "CORRECT" (value_counts col)) as [| [l c] rest] eqn:Htmp.
    { destruct Hentry. }
    rewrite Hmost.
    destruct (idxmax_from_max rest l c) as [k [Hin Hmax]].
    rewrite <- Htmp in Hin, Hmax.
    apply series_drop_In in Hin as [Hin Hne]. simpl in Hne.
    apply value_counts_In in Hin as [Hcol Hk].
    split; [exact Hcol |]. split; [exact Hne |].
    intros l' Hne'. rewrite <- Hk.
    destruct (in_dec string_dec l' col) as [Hl' | Hl'].
    - apply (Hmax l' (rows_with l' col)).
      apply series_drop_In. split; [| exact Hne'].
      apply value_counts_In. split; [exact Hl' | reflexivity].
    - unfold rows_with at 1.
      rewrite (proj1 (count_occ_not_In string_dec col l') Hl'). lia. }
  split; [exact Hgeneral |].
  intros col Hae Hwm Hok Hlen.
  assert (In "ARITHMETIC_ERROR" col) as Hin.
  { apply (count_occ_In string_dec). unfold rows_with in Hae. lia. }
  destruct (Hgeneral col) as [m [Hm [Hcol [Hne Hmax]]]].
  { exists "ARITHMETIC_ERROR". split; [exact Hin | discriminate]. }
  exists m. split; [exact Hm |].
  pose proof (Hmax "ARITHMETIC_ERROR" ltac:(discriminate)) as Hbig.
  rewrite Hae in Hbig.
  destruct (string_dec (most_common m) "ARITHMETIC_ERROR") as [Heq | Hother];
    [exact Heq | exfalso].
  destruct (string_dec (most_common m) "WRONG_METRIC_OR_CONCEPT") as [Heq | Hnw].
  { rewrite Heq, Hwm in Hbig. lia. }
  (* a fourth value would need rows beyond the 27 counted *)
  assert (forall (a b c d : string) (l : list string),
             a <> b -> a <> c -> a <> d -> b <> c -> b <> d -> c <> d ->
             rows_with a l + rows_with b l + rows_with c l + rows_with d l
             <= length l) as Hsum.
  { intros a b c d l Hab Hac Had Hbc Hbd Hcd. unfold rows_with.
    induction l as [| x l IH]; simpl; [lia |].
    destruct (string_dec x a), (string_dec x b), (string_dec x c),
      (string_dec x d); subst; try congruence; lia. }
  specialize (Hsum "ARITHMETIC_ERROR" "WRONG_METRIC_OR_CONCEPT" "CORRECT"
                (most_common m) col).
  rewrite Hae, Hwm, Hok, Hlen in Hsum.
  assert (5 + 2 + 20 + rows_with (most_common m) col <= 27) as Hle.
  { apply Hsum; try discriminate; auto. }
  lia.
Qed.

(** C9.  When no row has a label other than CORRECT, the series left after
    dropping CORRECT is empty and the metric reports the text CORRECT;
    [idxmax] is not reached. *)
Theorem most_common_defaults_to_correct :
  forall col : list string,
    col <> [] ->
    (forall l, In l col -> l = "CORRECT") ->
    exists m,
      compute_metrics col = inr m /\ most_common m = "CORRECT".
Proof.
  intros col _ Hall.
  destruct (compute_metrics_returns col) as [m [Hm [_ [_ [_ Hmost]]]]].
  exists m. split; [exact Hm |].
  destruct (series_drop "CORRECT" (value_counts col)) as [| [l c] rest] eqn:Htmp.
  - exact Hmost.
  - exfalso.
    assert (In (l, c) (series_drop "CORRECT" (value_counts col))) as Hin.
    { rewrite Htmp. left. reflexivity. }
    apply series_drop_In in Hin as [Hin Hne]. simpl in Hne.
    apply value_counts_In in Hin as [Hcol _].
    exact (Hne (Hall l Hcol)).
Qed.

(** C6.  On a non-empty table the accuracy is the number of rows labeled
    CORRECT over the number of rows; 6 such rows out of 10 give 0.6. *)
Theorem accuracy_is_correct_over_total :
  forall col : list string,
    col <> [] ->
    exists m,
      compute_metrics col = inr m
      /\ total m = length col
      /\ (accuracy m
          == Z.of_nat (rows_with "CORRECT" col) # Pos.of_nat (length col))%Q
      /\ (length col = 10 -> rows_with "CORRECT" col = 6 ->
          (accuracy m == 0.6)%Q).
Proof.
  intros col Hne.
  destruct (compute_metrics_returns col) as [m [Hm [Htotal [Hacc _]]]].
  exists m. split; [exact Hm |]. split; [exact Htotal |].
  assert (accuracy m
          == Z.of_nat (rows_with "CORRECT" col) # Pos.of_nat (length col))%Q
    as Hquot.
  { rewrite Hacc, count_eq_rows_with.
    destruct col as [| x col]; [contradiction |].
    change (length (x :: col)) with (S (length col)).
    change (Nat.eqb (S (length col)) 0) with false. cbv iota.
    rewrite <- Pos.of_nat_succ.
    change (Z.of_nat (S (length col)))
      with (Z.pos (Pos.of_succ_nat (length col))).
    unfold Qeq, Qdiv, Qmult, Qinv, inject_Z. simpl. lia. }
  split; [exact Hquot |].
  intros Hlen Hsix. rewrite Hquot, Hlen, Hsix. reflexivity.
Qed.

(* ===================================================================== *)
(** * The viewer's navigation *)
(* ===================================================================== *)

Lemma navigate_keeps_inv (len_df : Z) (p : page) (c : click) :
  page_inv len_df p ->
  clickable p c = true ->
  page_inv len_df (navigate len_df (deep_index p) c).
Proof.
  intros [Hrange [Hprev Hnext]] Hclick.
  unfold page_inv, navigate, st_button.
  destruct c; simpl in *.
  - destruct (Z.leb_spec (deep_index p) 0),
             (Z.leb_spec (len_df - 1) (deep_index p));
      repeat split; intros; try discriminate; lia.
  - apply negb_true_iff in Hclick. specialize (Hprev Hclick).
    destruct (Z.leb_spec (deep_index p) 0),
             (Z.leb_spec (len_df - 1) (deep_index p - 1));
      repeat split; intros; try discriminate; lia.
  - apply negb_true_iff in Hclick. specialize (Hnext Hclick).
    destruct (Z.leb_spec (deep_index p) 0),
             (Z.leb_spec (len_df - 1) (deep_index p));
      repeat split; intros; try discriminate; lia.
Qed.

(** The stored index never leaves [-1 .. len_df]. *)
Lemma session_index_range (len_df : Z) (clicks : list click) :
  forall p q,
    page_inv len_df p ->
    session len_df p clicks = Some q ->
    (-1 <= deep_index q <= len_df)%Z.
Proof.
  induction clicks as [| c clicks IH]; intros p q Hinv Hrun; simpl in Hrun.
  - injection Hrun as <-. apply Hinv.
  - destruct (clickable p c) eqn:Hclick; [| discriminate].
    apply (IH _ _ (navigate_keeps_inv _ _ _ Hinv Hclick) Hrun).
Qed.

(** C8, at the failing input.  On a table of two rows, two clicks on Next
    are possible (the second on a button still drawn enabled) and store
    the index 2, for which [df.iloc] has no row; three clicks on Previous
    from there are possible and store -1. *)
Theorem navigation_leaves_row_range :
  (exists p,
      session 2 (first_page 2) [ClickNext; ClickNext] = Some p
      /\ deep_index p = 2%Z
      /\ iloc_in_bounds 2 (deep_index p) = false)
  /\ (exists p,
        session 2 (first_page 2)
          [ClickNext; ClickNext; ClickPrevious; ClickPrevious; ClickPrevious]
          = Some p
        /\ deep_index p = (-1)%Z).
Proof.
  split; eexists; repeat split; reflexivity.
Qed.


(* ===================================================================== *)
(** * Further properties of the viewer *)
(* ===================================================================== *)

Lemma unique_NoDup (col : list string) : NoDup (unique col).
Proof.
  induction col as [| x col IH]; simpl.
  - constructor.
  - constructor.
    + intros Hin. apply filter_In in Hin as [_ Hne].
      rewrite String.eqb_refl in Hne. discriminate.
    + apply NoDup_filter. exact IH.
Qed.

(** A sum over distinct labels, with the term of one label set apart. *)
Lemma list_sum_split (g : string -> nat) (x : string) (us : list string) :
  NoDup us ->
  list_sum (map g us)
  = (if existsb (String.eqb x) us then g x else 0)
    + list_sum (map g (filter (fun y => negb (String.eqb y x)) us)).
Proof.
  induction us as [| y us IH]; intros Hnd; simpl.
  - reflexivity.
  - inversion Hnd as [| ? ? Hy Hus]; subst.
    specialize (IH Hus).
    destruct (String.eqb_spec x y) as [-> | Hne].
    + rewrite String.eqb_refl. simpl.
      assert (existsb (String.eqb y) us = false) as Hout.
      { destruct (existsb (String.eqb y) us) eqn:Hex; [| reflexivity].
        apply existsb_exists in Hex as [z [Hz Heq]].
        apply String.eqb_eq in Heq. subst z. contradiction. }
      rewrite Hout in IH. simpl in IH. lia.
    + destruct (String.eqb_spec y x) as [Heq | _]; [congruence |].
      simpl. lia.
Qed.

Lemma count_eq_cons (l x : string) (col : list string) :
  count_eq l (x :: col) = (if String.eqb x l then 1 else 0) + count_eq l col.
Proof. reflexivity. Qed.

Lemma count_eq_absent (l : string) (col : list string) :
  ~ In l col -> count_eq l col = 0.
Proof.
  intros Hout. rewrite count_eq_rows_with. unfold rows_with.
  apply count_occ_not_In. exact Hout.
Qed.

(** The counts of the distinct labels add up to the number of rows. *)
Lemma unique_counts_sum (col : list string) :
  list_sum (map (fun l => count_eq l col) (unique col)) = length col.
Proof.
  induction col as [| x col IH].
  - reflexivity.
  - cbn [unique map length].
    match goal with
    | |- list_sum (?a :: ?l) = _ =>
        change (list_sum (a :: l)) with (a + list_sum l)
    end.
    rewrite count_eq_cons, String.eqb_refl.
    rewrite (map_ext_in (fun l => count_eq l (x :: col))
               (fun l => count_eq l col)).
    2:{ intros l Hl. apply filter_In in Hl as [_ Hne].
        rewrite count_eq_cons.
        destruct (String.eqb_spec x l) as [-> | _]; [| reflexivity].
        rewrite String.eqb_refl in Hne. discriminate. }
    pose proof (list_sum_split (fun l => count_eq l col) x (unique col)
                  (unique_NoDup col)) as Hsplit.
    cbv beta in Hsplit. rewrite IH in Hsplit.
    destruct (existsb (String.eqb x) (unique col)) eqn:Hex.
    + lia.
    + assert (count_eq x col = 0) as Hzero.
      { apply count_eq_absent. intros Hin.
        apply unique_In in Hin.
        assert (existsb (String.eqb x) (unique col) = true) as Hyes.
        { apply existsb_exists. exists x.
          split; [exact Hin | apply String.eqb_refl]. }
        congruence. }
      lia.
Qed.

Lemma insert_desc_sorted (p : string * nat) (s : list (string * nat)) :
  StronglySorted (fun a b => snd b <= snd a) s ->
  StronglySorted (fun a b => snd b <= snd a) (insert_desc p s).
Proof.
  induction s as [| q s IH]; intros Hs; simpl.
  - constructor; constructor.
  - inversion Hs as [| ? ? Hrest Hq]; subst.
    destruct (Nat.leb_spec (snd q) (snd p)) as [Hle | Hgt].
    + constructor; [exact Hs |].
      constructor; [exact Hle |].
      apply Forall_forall. intros r Hr.
      pose proof (proj1 (Forall_forall _ _) Hq r Hr) as Hrq. simpl in Hrq. lia.
    + constructor; [apply IH; exact Hrest |].
      apply (Permutation_Forall (Permutation_sym (insert_desc_perm p s))).
      constructor; [simpl; lia | exact Hq].
Qed.

Lemma sort_values_desc_sorted (s : list (string * nat)) :
  StronglySorted (fun a b => snd b <= snd a) (sort_values_desc s).
Proof.
  unfold sort_values_desc. induction s as [| p s IH]; simpl.
  - constructor.
  - apply insert_desc_sorted. exact IH.
Qed.

(** X16.  The histogram [error_counts] lists every label of the table once,
    with the number of rows that hold it (never zero), and its counts add
    up to the number of rows. *)
Theorem error_counts_partition_rows :
  forall col : list string,
    NoDup (map fst (value_counts col))
    /\ (forall l c, In (l, c) (value_counts col)
                    <-> In l col /\ c = rows_with l col)
    /\ (forall l c, In (l, c) (value_counts col) -> 0 < c)
    /\ list_sum (map snd (value_counts col)) = length col.
Proof.
  intros col.
  assert (Permutation (value_counts col)
            (map (fun l => (l, count_eq l col)) (unique col))) as Hperm.
  { apply sort_values_desc_perm. }
  split; [| split; [| split]].
  - apply (Permutation_NoDup
             (Permutation_sym (Permutation_map fst Hperm))).
    rewrite map_map. simpl. rewrite map_id. apply unique_NoDup.
  - intros l c. apply value_counts_In.
  - intros l c Hin. apply value_counts_In in Hin as [Hl ->].
    unfold rows_with. apply count_occ_In. exact Hl.
  - rewrite (Permutation_list_sum (Permutation_map snd Hperm)).
    rewrite map_map. simpl. apply unique_counts_sum.
Qed.

(** X17.  The histogram is ordered by count, largest first. *)
Theorem error_counts_descending :
  forall col : list string,
    StronglySorted (fun a b => snd b <= snd a) (value_counts col).
Proof.
  intros col. unfold value_counts. apply sort_values_desc_sorted.
Qed.

(** X18.  [compute_metrics] never raises, on the empty table either:
    there the accuracy is 0 without a division and the histogram is empty.
    The most common error it reports is a label of the table or the text
    CORRECT. *)
Theorem compute_metrics_never_raises :
  forall col : list string,
    exists m,
      compute_metrics col = inr m
      /\ total m = length col
      /\ error_counts m = value_counts col
      /\ (most_common m = "CORRECT" \/ In (most_common m) col)
      /\ (col = [] -> accuracy m = 0%Q /\ error_counts m = []).
Proof.
  intros col.
  destruct (compute_metrics_returns col)
    as [m [Hm [Htotal [Hacc [Hcounts Hmost]]]]].
  exists m. split; [exact Hm |]. split; [exact Htotal |].
  split; [exact Hcounts |]. split.
  - destruct (series_drop "CORRECT" (value_counts col))
      as [| [l c] rest] eqn:Htmp.
    + left. exact Hmost.
    + right. rewrite Hmost.
      destruct (idxmax_from_max rest l c) as [k [Hin _]].
      rewrite <- Htmp in Hin.
      apply series_drop_In in Hin as [Hin _].
      apply value_counts_In in Hin. apply Hin.
  - intros ->. rewrite Hacc, Hcounts. split; reflexivity.
Qed.

Lemma rows_with_all (l : string) (col : list string) :
  rows_with l col = length col <-> (forall x, In x col -> x = l).
Proof.
  unfold rows_with. induction col as [| y col IH]; simpl.
  - split; [intros _ x [] | reflexivity].
  - pose proof (count_occ_bound string_dec l col) as Hbound.
    destruct (string_dec y l) as [-> | Hne].
    + split.
      * intros Heq x [<- | Hx]; [reflexivity |].
        apply IH; [lia | exact Hx].
      * intros Hall. f_equal. apply IH. intros x Hx. apply Hall. auto.
    + split.
      * intros Heq. lia.
      * intros Hall. exfalso. apply Hne. apply Hall. auto.
Qed.

Lemma accuracy_quotient (col : list string) :
  col <> [] ->
  exists m,
    compute_metrics col = inr m
    /\ (accuracy m
        == Z.of_nat (rows_with "CORRECT" col) # Pos.of_nat (length col))%Q.
Proof.
  intros Hne.
  destruct (compute_metrics_returns col) as [m [Hm [_ [Hacc _]]]].
  exists m. split; [exact Hm |].
  rewrite Hacc, count_eq_rows_with.
  destruct col as [| x col]; [contradiction |].
  change (length (x :: col)) with (S (length col)).
  change (Nat.eqb (S (length col)) 0) with false. cbv iota.
  rewrite <- Pos.of_nat_succ.
  change (Z.of_nat (S (length col)))
    with (Z.pos (Pos.of_succ_nat (length col))).
  unfold Qeq, Qdiv, Qmult, Qinv, inject_Z. simpl. lia.
Qed.

(** X19.  On a non-empty table the accuracy lies between 0 and 1; it is 1
    exactly when every row is labeled CORRECT and 0 exactly when none
    is. *)
Theorem accuracy_range :
  forall col : list string,
    col <> [] ->
    exists m,
      compute_metrics col = inr m
      /\ (0 <= accuracy m <= 1)%Q
      /\ ((accuracy m == 1)%Q <-> (forall l, In l col -> l = "CORRECT"))
      /\ ((accuracy m == 0)%Q <-> ~ In "CORRECT" col).
Proof.
  intros col Hne.
  destruct (accuracy_quotient col Hne) as [m [Hm Hquot]].
  exists m. split; [exact Hm |].
  assert (Z.pos (Pos.of_nat (length col)) = Z.of_nat (length col)) as Hden.
  { rewrite <- positive_nat_Z, Nat2Pos.id; [reflexivity |].
    destruct col; [contradiction | discriminate]. }
  pose proof (count_occ_bound string_dec "CORRECT" col) as Hbound.
  fold (rows_with "CORRECT" col) in Hbound.
  split; [| split].
  - rewrite Hquot. unfold Qle. simpl. rewrite Hden. lia.
  - rewrite Hquot. unfold Qeq. simpl. rewrite Hden.
    rewrite <- rows_with_all. lia.
  - rewrite Hquot. unfold Qeq. simpl.
    unfold rows_with. rewrite (count_occ_not_In string_dec). lia.
Qed.

(** X20.  The number shown as Total Failures is the number of rows whose
    label is not CORRECT; it is never negative, and with the rows labeled
    CORRECT it makes up the table. *)
Theorem failures_count_other_rows :
  forall col : list string,
    failures col
    = Z.of_nat (length (filter (fun l => negb (String.eqb l "CORRECT")) col))
    /\ (failures col + Z.of_nat (rows_with "CORRECT" col)
        = Z.of_nat (length col))%Z.
Proof.
  intros col. unfold failures. rewrite count_eq_rows_with.
  pose proof (count_occ_bound string_dec "CORRECT" col) as Hbound.
  fold (rows_with "CORRECT" col) in Hbound.
  split; [| lia].
  assert (length (filter (fun l => negb (String.eqb l "CORRECT")) col)
          + rows_with "CORRECT" col = length col) as Hsum.
  { unfold rows_with. clear. induction col as [| x col IH]; simpl.
    - reflexivity.
    - destruct (String.eqb_spec x "CORRECT") as [-> | Hne]; simpl.
      + destruct (string_dec "CORRECT" "CORRECT"); [lia | contradiction].
      + destruct (string_dec x "CORRECT"); [contradiction | lia]. }
  lia.
Qed.

(** X21.  Each of the seven labels of ERROR_LABELS has its own pill
    colours, except ACCOUNTING_CONVENTION_ERROR, which, like UNKNOWN and
    any other text, is drawn in the fallback colours. *)
Theorem pill_colors_of_labels :
  (forall l, In l ERROR_LABELS -> l <> "ACCOUNTING_CONVENTION_ERROR" ->
             exists bg fg,
               assoc l ERROR_COLORS = Some bg
               /\ assoc l ERROR_TEXT_COLORS = Some fg
               /\ pill_colors l = (bg, fg))
  /\ (forall l, ~ In l ERROR_LABELS \/ l = "ACCOUNTING_CONVENTION_ERROR" ->
                pill_colors l = ("#EEE", "#111")).
Proof.
  split.
  - intros l Hin Hne. simpl in Hin.
    repeat (destruct Hin as [<- | Hin];
            [first [contradiction | (eexists _, _; repeat split; reflexivity)] |]).
    destruct Hin.
  - intros l Hl.
    assert (forall table default,
               map fst table = map fst ERROR_COLORS ->
               row_get table l default = default) as Hdefault.
    { intros table default Hkeys. unfold row_get.
      destruct (assoc l table) as [v |] eqn:Hassoc; [| reflexivity].
      exfalso.
      assert (In l (map fst table)) as Hkey.
      { clear Hkeys. induction table as [| [k v'] table IH];
          simpl in Hassoc; [discriminate |].
        destruct (String.eqb_spec l k) as [-> | _]; simpl; auto. }
      rewrite Hkeys in Hkey. simpl in Hkey.
      destruct Hl as [Hout | ->].
      - apply Hout. simpl.
        repeat (destruct Hkey as [<- | Hkey]; [tauto |]). destruct Hkey.
      - repeat (destruct Hkey as [Heq | Hkey]; [discriminate |]).
        destruct Hkey. }
    unfold pill_colors. rewrite !Hdefault; reflexivity.
Qed.

(** X22.  From the first page on, whatever is clicked, the stored index
    stays within one step of the table: between -1 and the number of
    rows. *)
Theorem navigation_within_one_step :
  forall (len_df : Z) (clicks : list click) (p : page),
    (0 <= len_df)%Z ->
    session len_df (first_page len_df) clicks = Some p ->
    (-1 <= deep_index p <= len_df)%Z.
Proof.
  intros len_df clicks p Hlen Hrun.
  apply (session_index_range len_df clicks (first_page len_df) p);
    [| exact Hrun].
  unfold page_inv, first_page, navigate, st_button. simpl.
  destruct (Z.leb_spec (len_df - 1) 0);
    repeat split; intros; try discriminate; lia.
Qed.

(** X23.  On a page drawn by a run without a click the buttons tell the
    truth: from an index inside the table, any click that page allows
    stores an index inside the table again. *)
Theorem click_on_fresh_page_stays_in_table :
  forall (len_df index : Z) (c : click),
    (0 <= index <= len_df - 1)%Z ->
    clickable (navigate len_df index NoClick) c = true ->
    (0 <= deep_index (navigate len_df index c) <= len_df - 1)%Z
    /\ iloc_in_bounds len_df (deep_index (navigate len_df index c)) = true.
Proof.
  intros len_df index c Hrange Hclick.
  assert (0 <= deep_index (navigate len_df index c) <= len_df - 1)%Z as Hin.
  { unfold navigate, st_button, clickable in *. destruct c; simpl in *.
    - lia.
    - apply negb_true_iff in Hclick.
      destruct (Z.leb_spec index 0); [discriminate | lia].
    - apply negb_true_iff in Hclick.
      destruct (Z.leb_spec (len_df - 1) index); [discriminate | lia]. }
  split; [exact Hin |].
  unfold iloc_in_bounds. apply andb_true_iff. split.
  - apply Z.leb_le. lia.
  - apply Z.ltb_lt. lia.
Qed.

(* ===================================================================== *)
(** * The statements on concrete runs *)
(* ===================================================================== *)

Lemma reversed_spec (m : nat) : Permutation (reversed m) (seq 0 m).
Proof. unfold reversed. apply Permutation_sym, Permutation_rev. Qed.

(** C1 on a run of two samples: the judge answers FOO for the first and
    sends no content for the second. *)
Lemma error_label_in_label_set_run :
  (exists records,
      main_loop _ scripted_create table_loads (fun s => s) two_samples []
        [inr (Some "42"); inr (Some foo_json); inr (Some "7"); inr None]
        = (inr records, [])
      /\ Forall (fun r => valid_label (error_label r)) records)
  /\ (exists rationale,
        label_failure _ scripted_create table_loads "q1" "a1" "42"
          [inr (Some foo_json)]
          = (inr (PyStr "UNKNOWN", rationale), [])).
Proof.
  pose proof (error_label_in_label_set _ scripted_create table_loads
                (fun s => s)) as [Hrecords Hfoo].
  split.
  - eexists. split; [lazy; reflexivity |].
    eapply (Hrecords two_samples
              [inr (Some "42"); inr (Some foo_json); inr (Some "7"); inr None]
              []).
    lazy. reflexivity.
  - eapply (Hfoo "q1" "a1" "42" foo_json).
    + reflexivity.
    + discriminate.
    + reflexivity.
    + reflexivity.
    + intros s Hs. simpl in Hs.
      repeat (destruct Hs as [<- | Hs]; [discriminate |]). destruct Hs.
Defined.

(** C2 on a run in which the service refuses every call. *)
Lemma output_count_equals_sample_count_run :
  exists records w',
    main_loop _ scripted_create table_loads (fun s => s) two_samples [] []
      = (inr records, w')
    /\ length records = 2.
Proof.
  apply (output_count_equals_sample_count _ scripted_create table_loads
           (fun s => s) two_samples []).
  reflexivity.
Defined.

(** C3, as stated, fails: the judge call raises an exception whose text is
    empty, and the record stores the empty text as rationale. *)
Lemma judge_failure_empty_rationale :
  scripted_create (JudgeRequest LABEL_MODEL "q1" "a1" "42")
    [inl (Raise OtherException "")]
    = (inl (Raise OtherException ""), [])
  /\ exists r,
       main_iteration _ scripted_create table_loads (fun s => s)
         (sample_row "q1" "a1")
         [inr (Some "42"); inl (Raise OtherException "")]
         = (inr r, [])
       /\ error_label r = PyStr "UNKNOWN"
       /\ error_rationale r = PyStr "".
Proof.
  split; [reflexivity |].
  eexists. split; [lazy; reflexivity |]. split; reflexivity.
Qed.

(** C3, amended, on a run in which the judge call times out. *)
Lemma judge_failure_stores_unknown_run :
  exists r,
    main_iteration _ scripted_create table_loads (fun s => s)
      (sample_row "q1" "a1")
      [inr (Some "42"); inl (Raise OtherException "Request timed out.")]
      = (inr r, [])
    /\ error_label r = PyStr "UNKNOWN"
    /\ error_rationale r = PyStr "Request timed out."
    /\ error_rationale r <> PyStr "".
Proof.
  destruct (judge_failure_stores_unknown _ scripted_create table_loads
              (fun s => s) (sample_row "q1" "a1") "q1" "a1" "42"
              [inr (Some "42"); inl (Raise OtherException "Request timed out.")]
              [inl (Raise OtherException "Request timed out.")]
              []
              (Raise OtherException "Request timed out.")
              eq_refl eq_refl eq_refl eq_refl)
    as [r [Hrun [Hlabel [Hrat Hne]]]].
  exists r. split; [exact Hrun |]. split; [exact Hlabel |].
  split; [exact Hrat |]. apply Hne. discriminate.
Defined.

(** C7 on a run in which the target call of the first sample raises. *)
Lemma target_failure_continues_run :
  exists r w2,
    main_iteration _ scripted_create table_loads (fun s => s)
      (sample_row "q1" "a1")
      [inl (Raise OtherException "Connection error."); inr (Some correct_json)]
      = (inr r, w2)
    /\ model_answer r = ""
    /\ label_failure _ scripted_create table_loads "q1" "a1" ""
         [inr (Some correct_json)]
         = (inr (error_label r, error_rationale r), w2)
    /\ (forall rest records,
           main_loop _ scripted_create table_loads (fun s => s)
             (sample_row "q1" "a1" :: rest) records
             [inl (Raise OtherException "Connection error.");
              inr (Some correct_json)]
           = main_loop _ scripted_create table_loads (fun s => s)
               rest (records ++ [r]) w2).
Proof.
  apply (target_failure_continues _ scripted_create table_loads (fun s => s)
           (sample_row "q1" "a1") "q1" "a1"
           [inl (Raise OtherException "Connection error.");
            inr (Some correct_json)]
           [inr (Some correct_json)]
           (Raise OtherException "Connection error.")).
  - reflexivity.
  - reflexivity.
  - reflexivity.
Defined.

(** C4 on a source of three records, two of them of an allowed type:
    asking for five returns the two, asking for one returns one. *)
Lemma sampler_returns_min_count_run :
  (exists out,
      load_financeqa_sample reversed typed_source 5 = inr out
      /\ len out = 2%Z)
  /\ (exists out,
        load_financeqa_sample reversed typed_source 1 = inr out
        /\ len out = 1%Z).
Proof.
  split.
  - destruct (sampler_returns_min_count reversed reversed_spec typed_source 5)
      as [out [Hload [Hlen _]]]; [lia |].
    exists out. split; [exact Hload | exact Hlen].
  - destruct (sampler_returns_min_count reversed reversed_spec typed_source 1)
      as [out [Hload [Hlen _]]]; [lia |].
    exists out. split; [exact Hload | exact Hlen].
Defined.

(** C10 on a source without the column: all three records are sampled. *)
Lemma sampler_filters_only_with_column_run :
  exists out,
    load_financeqa_sample reversed untyped_source 5 = inr out
    /\ len out = 3%Z
    /\ Permutation (rows out) (rows untyped_source).
Proof.
  destruct (proj1 (sampler_filters_only_with_column reversed reversed_spec
                     untyped_source 5))
    as [out [Hload [Hlen [_ Hall]]]].
  - reflexivity.
  - lia.
  - exists out. split; [exact Hload |]. split; [exact Hlen |].
    apply Hall. unfold len. simpl. lia.
Defined.

(** C5 on the table of the specification's example. *)
Lemma most_common_error_excludes_correct_run :
  exists m,
    compute_metrics example_labels = inr m
    /\ most_common m = "ARITHMETIC_ERROR".
Proof.
  apply (proj2 most_common_error_excludes_correct example_labels);
    reflexivity.
Defined.

(** C9 on a table of three rows, all CORRECT. *)
Lemma most_common_defaults_to_correct_run :
  exists m,
    compute_metrics (repeat "CORRECT" 3) = inr m
    /\ most_common m = "CORRECT".
Proof.
  apply (most_common_defaults_to_correct (repeat "CORRECT" 3)).
  - discriminate.
  - intros l Hl. simpl in Hl.
    repeat (destruct Hl as [<- | Hl]; [reflexivity |]). destruct Hl.
Defined.

(** C6 on a table of ten rows, six of them CORRECT. *)
Lemma accuracy_is_correct_over_total_run :
  exists m,
    compute_metrics ten_labels = inr m
    /\ total m = 10
    /\ (accuracy m == 0.6)%Q.
Proof.
  destruct (accuracy_is_correct_over_total ten_labels)
    as [m [Hm [Htotal [_ Hex]]]].
  - discriminate.
  - exists m. split; [exact Hm |]. split; [exact Htotal |].
    apply Hex; reflexivity.
Defined.

(* ===================================================================== *)
(** * The further properties on concrete runs *)
(* ===================================================================== *)

(** X3 on a judge that answers CORRECT. *)
Lemma label_failure_accepts_listed_label_run :
  label_failure _ scripted_create table_loads "q1" "a1" "42"
    [inr (Some correct_json)]
  = (inr (PyStr "CORRECT", PyStr "matches"), []).
Proof.
  apply (label_failure_accepts_listed_label _ scripted_create table_loads
           "q1" "a1" "42" correct_json "CORRECT" [inr (Some correct_json)] []
           [("label", PyStr "CORRECT"); ("rationale", PyStr "matches")]).
  - reflexivity.
  - discriminate.
  - reflexivity.
  - reflexivity.
  - simpl. auto.
Defined.

(** X4 on a document that only has a rationale. *)
Lemma label_failure_missing_label_run :
  label_failure _ scripted_create more_loads "q1" "a1" "42"
    [inr (Some rationale_only_json)]
  = (inr (PyStr "UNKNOWN", PyStr "why"), []).
Proof.
  apply (label_failure_missing_label _ scripted_create more_loads
           "q1" "a1" "42" rationale_only_json
           [inr (Some rationale_only_json)] []
           [("rationale", PyStr "why")]).
  - reflexivity.
  - discriminate.
  - reflexivity.
  - reflexivity.
Defined.

(** X5 on a judge whose message is the empty text. *)
Lemma label_failure_no_content_run :
  label_failure _ scripted_create table_loads "q1" "a1" "42" [inr (Some "")]
  = (inr (PyStr "UNKNOWN", PyStr "No content returned in JSON"), []).
Proof.
  apply (label_failure_no_content _ scripted_create table_loads
           "q1" "a1" "42" [inr (Some "")] [] (Some "")).
  - reflexivity.
  - right. reflexivity.
Defined.

(** X6 on a judge that answers with prose. *)
Lemma label_failure_decode_error_run :
  label_failure _ scripted_create table_loads "q1" "a1" "42"
    [inr (Some "The answer is wrong.")]
  = (inr (PyStr "UNKNOWN",
          PyStr "JSON decode error: Expecting value: line 1 column 1 (char 0)"),
     []).
Proof.
  apply (label_failure_decode_error _ scripted_create table_loads
           "q1" "a1" "42" "The answer is wrong."
           [inr (Some "The answer is wrong.")] []
           (Raise JSONDecodeError "Expecting value: line 1 column 1 (char 0)")).
  - reflexivity.
  - discriminate.
  - reflexivity.
  - reflexivity.
Defined.

(** X7 on a judge that answers with an empty list. *)
Lemma label_failure_not_an_object_run :
  label_failure _ scripted_create table_loads "q1" "a1" "42" [inr (Some "[]")]
  = (inr (PyStr "UNKNOWN", PyStr "'list' object has no attribute 'get'"), []).
Proof.
  apply (label_failure_not_an_object _ scripted_create table_loads
           "q1" "a1" "42" "[]" [inr (Some "[]")] [] (PyList [])).
  - reflexivity.
  - discriminate.
  - reflexivity.
  - intros items. discriminate.
Defined.

(** X8 on a run with a target answer and a judge that accepts it. *)
Lemma main_iteration_two_requests_run :
  exists r,
    main_iteration _ scripted_create table_loads (fun s => s)
      (sample_row "q1" "a1") [inr (Some "42"); inr (Some correct_json)]
    = (inr r, [])
    /\ model_answer r = "42".
Proof.
  exact (main_iteration_two_requests _ scripted_create table_loads (fun s => s)
           (sample_row "q1" "a1") "q1" "a1"
           [inr (Some "42"); inr (Some correct_json)] eq_refl eq_refl).
Defined.

(** X9 on a row without file cells. *)
Lemma record_repeats_row_run :
  exists r,
    main_iteration _ scripted_create table_loads (fun s => s)
      (sample_row "q1" "a1") [inr (Some "42"); inr (Some correct_json)]
    = (inr r, [])
    /\ r_company r = "ACME"
    /\ r_file_link r = "".
Proof.
  eexists. split; [lazy; reflexivity |].
  match goal with
  | |- r_company ?r = _ /\ _ =>
      destruct (record_repeats_row _ scripted_create table_loads (fun s => s)
                  (sample_row "q1" "a1")
                  [inr (Some "42"); inr (Some correct_json)] [] r)
        as [_ [_ [_ [_ [Hcompany [Hlink _]]]]]]
  end.
  - lazy. reflexivity.
  - split; [exact Hcompany | exact Hlink].
Defined.


(** X11 on a run of two samples. *)
Lemma records_follow_sample_order_run :
  exists records,
    main_loop _ scripted_create table_loads (fun s => s) two_samples [] []
    = (inr records, [])
    /\ map (fun r => Some (r_question r)) records = [Some "q1"; Some "q2"].
Proof.
  eexists. split; [lazy; reflexivity |].
  match goal with
  | |- map _ ?records = _ =>
      destruct (records_follow_sample_order _ scripted_create table_loads
                  (fun s => s) two_samples [] [] records) as [Hquestions _]
  end.
  - lazy. reflexivity.
  - exact Hquestions.
Defined.


(** X13 on the count -1. *)
Lemma sampler_rejects_negative_count_run :
  exists message,
    load_financeqa_sample reversed typed_source (-1)
    = inl (Raise ValueError message).
Proof.
  apply (sampler_rejects_negative_count reversed typed_source (-1)). lia.
Defined.


(** X15 on a run of two samples: four requests. *)
Lemma requests_of_a_run_run :
  exists records journal,
    main_loop _ (logged _ scripted_create) table_loads (fun s => s)
      two_samples [] ([inr (Some "42"); inr (Some correct_json)], [])
    = (inr records, ([], journal))
    /\ journal = flat_map requests_of records
    /\ length journal = 4.
Proof.
  eexists _, _. split; [lazy; reflexivity |].
  eapply (requests_of_a_run _ scripted_create table_loads (fun s => s)
            two_samples [inr (Some "42"); inr (Some correct_json)] []).
  lazy. reflexivity.
Defined.

(** X19 on the table of ten rows. *)
Lemma accuracy_range_run :
  exists m,
    compute_metrics ten_labels = inr m /\ (0 <= accuracy m <= 1)%Q.
Proof.
  destruct (accuracy_range ten_labels) as [m [Hm [Hrange _]]].
  - discriminate.
  - exists m. split; [exact Hm | exact Hrange].
Defined.

(** X22 on a table of five rows. *)
Lemma navigation_within_one_step_run :
  exists p,
    session 5 (first_page 5) [ClickNext; ClickNext; ClickPrevious] = Some p
    /\ (-1 <= deep_index p <= 5)%Z.
Proof.
  eexists. split; [reflexivity |].
  apply (navigation_within_one_step 5 [ClickNext; ClickNext; ClickPrevious]).
  - lia.
  - reflexivity.
Defined.

(** X23 on the last row of a table of five. *)
Lemma click_on_fresh_page_stays_in_table_run :
  (0 <= deep_index (navigate 5 4 ClickPrevious) <= 5 - 1)%Z
  /\ iloc_in_bounds 5 (deep_index (navigate 5 4 ClickPrevious)) = true.
Proof.
  apply (click_on_fresh_page_stays_in_table 5 4 ClickPrevious).
  - lia.
  - reflexivity.
Defined.
